(** * Movie Tracker backend: the bootstrap script [src/server.js]

    The script wires an Express application (cross-origin middleware,
    JSON body parser, one route), starts a database connectivity check and
    opens the listener.  The development embeds the script statement by
    statement ([Server.server_js]), together with the parts of the run time
    the script drives:

    - the framework, with the behaviour of Express 4 and the packages it
      ships with: the layer stack of the router, [res.send] with entity
      tags and conditional requests, the final handler ([Express]);
    - [cors()] and [express.json()] with their default options ([Cors],
      [BodyParser]), and the JSON grammar of [JSON.parse] ([Json]);
    - the process: its environment, console, pending promise and listener,
      and the events the run time delivers once the script has run (the
      check settles, the bind succeeds or fails, a request comes in).

    A request is the message as the framework hands it over: method, path
    name, lower-case header names and the body.  Header values and bodies
    are strings of bytes, one character each (Node reads header values as
    Latin-1). *)

From Stdlib Require Import ZArith NArith String Ascii List Bool Lia.
From stdpp Require Import base option gmap strings list fin_maps.
Import ListNotations.

Local Open Scope string_scope.

(** ** Small string helpers *)

Definition dquote : ascii := Ascii.ascii_of_nat 34.

Definition code (c : ascii) : nat := Ascii.nat_of_ascii c.

Definition between (lo hi : nat) (c : ascii) : bool :=
  (lo <=? code c)%nat && (code c <=? hi)%nat.

Definition is_digit : ascii -> bool := between 48 57.

Definition is_hex (c : ascii) : bool :=
  is_digit c || between 65 70 c || between 97 102 c.

Definition is_alnum (c : ascii) : bool :=
  is_digit c || between 65 90 c || between 97 122 c.

(** [c] is one of the characters of [chars]. *)
Definition one_of (chars : string) (c : ascii) : bool :=
  existsb (Ascii.eqb c) (list_ascii_of_string chars).

Definition lower_ascii (c : ascii) : ascii :=
  if between 65 90 c then Ascii.ascii_of_nat (code c + 32) else c.

Fixpoint lower (s : string) : string :=
  match s with
  | EmptyString => EmptyString
  | String c r => String (lower_ascii c) (lower r)
  end.

(** ** JSON texts, as [JSON.parse] accepts them (ECMA-404)

    The recogniser is a pushdown automaton driven one character at a time:
    [frame] is the stack of open containers, [mode] what may come next. *)

Module Json.

Inductive frame := InArray | InObject.

Inductive numst :=
| NMinus | NZero | NInt | NDot | NFrac | NExp | NExpSign | NExpDigits.

Inductive mode :=
| WantValue
| WantValueOrEnd
| WantKeyOrEnd
| WantKey
| WantColon
| AfterValue
| InStr (key : bool)
| InEsc (key : bool)
| InHex (key : bool) (more : nat)
| InNum (n : numst)
| InLit (rest : list ascii).

Definition state : Type := list frame * mode.

Definition is_ws (c : ascii) : bool :=
  (code c =? 32)%nat || (code c =? 9)%nat || (code c =? 10)%nat
  || (code c =? 13)%nat.

Definition eqc c (x : ascii) : bool := Ascii.eqb c x.

Definition num_step (n : numst) (c : ascii) : option numst :=
  match n with
  | NMinus =>
      if eqc c "0" then Some NZero
      else if between 49 57 c then Some NInt else None
  | NZero =>
      if eqc c "." then Some NDot
      else if eqc c "e" || eqc c "E" then Some NExp else None
  | NInt =>
      if is_digit c then Some NInt
      else if eqc c "." then Some NDot
      else if eqc c "e" || eqc c "E" then Some NExp else None
  | NDot => if is_digit c then Some NFrac else None
  | NFrac =>
      if is_digit c then Some NFrac
      else if eqc c "e" || eqc c "E" then Some NExp else None
  | NExp =>
      if eqc c "+" || eqc c "-" then Some NExpSign
      else if is_digit c then Some NExpDigits else None
  | NExpSign => if is_digit c then Some NExpDigits else None
  | NExpDigits => if is_digit c then Some NExpDigits else None
  end.

Definition num_final (n : numst) : bool :=
  match n with
  | NZero | NInt | NFrac | NExpDigits => true
  | _ => false
  end.

(** A value starts at [c]; [m] is the mode to stay in over white space. *)
Definition start_value (stk : list frame) (m : mode) (c : ascii)
  : option state :=
  if is_ws c then Some (stk, m)
  else if eqc c "{" then Some (InObject :: stk, WantKeyOrEnd)
  else if eqc c "[" then Some (InArray :: stk, WantValueOrEnd)
  else if eqc c dquote then Some (stk, InStr false)
  else if eqc c "-" then Some (stk, InNum NMinus)
  else if eqc c "0" then Some (stk, InNum NZero)
  else if between 49 57 c then Some (stk, InNum NInt)
  else if eqc c "t" then Some (stk, InLit (list_ascii_of_string "rue"))
  else if eqc c "f" then Some (stk, InLit (list_ascii_of_string "alse"))
  else if eqc c "n" then Some (stk, InLit (list_ascii_of_string "ull"))
  else None.

(** A value has just ended and [c] follows it. *)
Definition after_value (stk : list frame) (c : ascii) : option state :=
  if is_ws c then Some (stk, AfterValue)
  else
    match stk with
    | [] => None
    | InArray :: up =>
        if eqc c "," then Some (stk, WantValue)
        else if eqc c "]" then Some (up, AfterValue) else None
    | InObject :: up =>
        if eqc c "," then Some (stk, WantKey)
        else if eqc c "}" then Some (up, AfterValue) else None
    end.

Definition step (st : state) (c : ascii) : option state :=
  let '(stk, m) := st in
  match m with
  | WantValue => start_value stk WantValue c
  | WantValueOrEnd =>
      if eqc c "]" then
        match stk with
        | InArray :: up => Some (up, AfterValue)
        | _ => None
        end
      else start_value stk WantValueOrEnd c
  | WantKeyOrEnd =>
      if is_ws c then Some (stk, WantKeyOrEnd)
      else if eqc c dquote then Some (stk, InStr true)
      else if eqc c "}" then
        match stk with
        | InObject :: up => Some (up, AfterValue)
        | _ => None
        end
      else None
  | WantKey =>
      if is_ws c then Some (stk, WantKey)
      else if eqc c dquote then Some (stk, InStr true) else None
  | WantColon =>
      if is_ws c then Some (stk, WantColon)
      else if eqc c ":" then Some (stk, WantValue) else None
  | AfterValue => after_value stk c
  | InStr k =>
      if eqc c dquote then Some (stk, if k then WantColon else AfterValue)
      else if eqc c "\" then Some (stk, InEsc k)
      else if (code c <? 32)%nat then None
      else Some (stk, InStr k)
  | InEsc k =>
      if eqc c dquote || eqc c "\" || eqc c "/" || eqc c "b" || eqc c "f"
         || eqc c "n" || eqc c "r" || eqc c "t"
      then Some (stk, InStr k)
      else if eqc c "u" then Some (stk, InHex k 3) else None
  | InHex k more =>
      if is_hex c then
        match more with
        | O => Some (stk, InStr k)
        | S l => Some (stk, InHex k l)
        end
      else None
  | InNum n =>
      match num_step n c with
      | Some n' => Some (stk, InNum n')
      | None => if num_final n then after_value stk c else None
      end
  | InLit rest =>
      match rest with
      | [] => None
      | x :: more =>
          if eqc c x then
            Some (stk, match more with [] => AfterValue | _ => InLit more end)
          else None
      end
  end.

Fixpoint run (st : state) (s : string) : option state :=
  match s with
  | EmptyString => Some st
  | String c r =>
      match step st c with
      | Some st' => run st' r
      | None => None
      end
  end.

Definition final (st : state) : bool :=
  match st with
  | ([], AfterValue) => true
  | ([], InNum n) => num_final n
  | _ => false
  end.

(** [valid s]: [JSON.parse(s)] does not throw. *)
Definition valid (s : string) : bool :=
  match run ([], WantValue) s with
  | Some st => final st
  | None => false
  end.

End Json.

(** ** Strings: splitting, trimming, numbers *)

Definition quoted (s : string) : string :=
  String dquote (s +:+ String dquote EmptyString).

Fixpoint drop_while (p : ascii -> bool) (l : list ascii) : list ascii :=
  match l with
  | [] => []
  | c :: r => if p c then drop_while p r else l
  end.

(** [String.prototype.trim] restricted to the characters [p]. *)
Definition trim_with (p : ascii -> bool) (s : string) : string :=
  string_of_list_ascii
    (rev (drop_while p (rev (drop_while p (list_ascii_of_string s))))).

(** [s.split(sep)] for a one-character separator. *)
Fixpoint split_on (sep : ascii) (s : string) : list string :=
  match s with
  | EmptyString => [EmptyString]
  | String c r =>
      if Ascii.eqb c sep then EmptyString :: split_on sep r
      else
        match split_on sep r with
        | [] => [String c EmptyString]
        | w :: ws => String c w :: ws
        end
  end.

Definition is_space (c : ascii) : bool := (code c =? 32)%nat.

(** The regular-expression class [\s] on a string of Latin-1 characters:
    blank, tab, line feed, vertical tab, form feed, carriage return and the
    no-break space U+00A0; the other members of the class have codes above
    255. *)
Definition is_regex_space (c : ascii) : bool :=
  (code c =? 32)%nat || between 9 13 c || (code c =? 160)%nat.

Definition hex_digit (n : N) : ascii :=
  if (n <? 10)%N then Ascii.ascii_of_N (48 + n) else Ascii.ascii_of_N (87 + n).

(** [%XX] for a byte, in upper case as [encodeURI] writes it. *)
Definition percent (n : nat) : string :=
  let digit d :=
    Ascii.ascii_of_nat (if (d <? 10)%nat then 48 + d else 55 + d) in
  String "%" (String (digit (n / 16)) (String (digit (n mod 16)) EmptyString)).

Definition nl : string := String (Ascii.ascii_of_nat 10) EmptyString.

Fixpoint to_hex_fuel (fuel : nat) (n : N) (acc : string) : string :=
  match fuel with
  | O => acc
  | S f =>
      let acc' := String (hex_digit (n mod 16)) acc in
      if (n / 16 =? 0)%N then acc' else to_hex_fuel f (n / 16) acc'
  end.

(** [n.toString(16)] *)
Definition to_hex (n : N) : string := to_hex_fuel (S (N.to_nat (N.log2 n))) n "".

Fixpoint to_dec_fuel (fuel : nat) (n : N) (acc : string) : string :=
  match fuel with
  | O => acc
  | S f =>
      let acc' := String (Ascii.ascii_of_N (48 + n mod 10)) acc in
      if (n / 10 =? 0)%N then acc' else to_dec_fuel f (n / 10) acc'
  end.

(** [String(n)] for a natural number. *)
Definition to_dec (n : N) : string := to_dec_fuel (S (N.to_nat (N.log2 n))) n "".

Definition byte_length (s : string) : N := N.of_nat (String.length s).

(** ** Entity tags

    [res.send] tags the payload with a weak entity tag (application setting
    [etag], default [weak]): the length in hexadecimal and the first 27
    characters of the base-64 SHA-1 digest. *)

Module Etag.

Local Open Scope N_scope.

Definition w32 (x : N) : N := x mod 4294967296.

Definition rotl (k : N) (x : N) : N :=
  w32 (N.lor (N.shiftl x k) (N.shiftr x (32 - k))).

Definition bytes_of (s : string) : list N :=
  map Ascii.N_of_ascii (list_ascii_of_string s).

(** Big-endian bytes of [x], [n] of them. *)
Fixpoint be_bytes (n : nat) (x : N) : list N :=
  match n with
  | O => []
  | S k => (N.shiftr x (8 * N.of_nat k)) mod 256 :: be_bytes k x
  end.

Definition pad (msg : list N) : list N :=
  let len := N.of_nat (length msg) in
  let zeros := N.to_nat ((64 + 55 - len mod 64) mod 64) in
  msg ++ [128] ++ repeat 0 zeros ++ be_bytes 8 (8 * len).

Fixpoint words (fuel : nat) (bs : list N) : list N :=
  match fuel, bs with
  | S f, a :: b :: c :: d :: r =>
      (N.shiftl a 24 + N.shiftl b 16 + N.shiftl c 8 + d) :: words f r
  | _, _ => []
  end.

(** Message schedule, most recent word first. *)
Fixpoint schedule (n : nat) (rev_w : list N) : list N :=
  match n with
  | O => rev_w
  | S k =>
      let x i := nth i rev_w 0 in
      schedule k
        (rotl 1 (N.lxor (N.lxor (x 2%nat) (x 7%nat))
                        (N.lxor (x 13%nat) (x 15%nat))) :: rev_w)
  end.

Definition lnot32 (x : N) : N := 4294967295 - x.

Definition round (i : nat) (st : N * N * N * N * N) (w : N)
  : N * N * N * N * N :=
  let '(a, b, c, d, e) := st in
  let '(f, k) :=
    if (i <? 20)%nat then
      (N.lor (N.land b c) (N.land (lnot32 b) d), 1518500249)
    else if (i <? 40)%nat then (N.lxor (N.lxor b c) d, 1859775393)
    else if (i <? 60)%nat then
      (N.lor (N.lor (N.land b c) (N.land b d)) (N.land c d), 2400959708)
    else (N.lxor (N.lxor b c) d, 3395469782) in
  (w32 (rotl 5 a + f + e + k + w), a, rotl 30 b, c, d).

Fixpoint rounds (i : nat) (ws : list N) (st : N * N * N * N * N)
  : N * N * N * N * N :=
  match ws with
  | [] => st
  | w :: r => rounds (S i) r (round i st w)
  end.

Definition block (h : N * N * N * N * N) (blk : list N)
  : N * N * N * N * N :=
  let ws := rev (schedule 64 (rev (words 16 blk))) in
  let '(a, b, c, d, e) := rounds 0 ws h in
  let '(h0, h1, h2, h3, h4) := h in
  (w32 (h0 + a), w32 (h1 + b), w32 (h2 + c), w32 (h3 + d), w32 (h4 + e)).

Fixpoint blocks (fuel : nat) (h : N * N * N * N * N) (bs : list N)
  : N * N * N * N * N :=
  match fuel, bs with
  | S f, _ :: _ => blocks f (block h (firstn 64 bs)) (skipn 64 bs)
  | _, _ => h
  end.

Definition sha1 (msg : list N) : list N :=
  let p := pad msg in
  let '(h0, h1, h2, h3, h4) :=
    blocks (length p)
      (1732584193, 4023233417, 2562383102, 271733878, 3285377520) p in
  be_bytes 4 h0 ++ be_bytes 4 h1 ++ be_bytes 4 h2 ++ be_bytes 4 h3
  ++ be_bytes 4 h4.

Definition b64_char (n : N) : ascii :=
  if n <? 26 then Ascii.ascii_of_N (65 + n)
  else if n <? 52 then Ascii.ascii_of_N (71 + n)
  else if n <? 62 then Ascii.ascii_of_N (n - 4)
  else if n =? 62 then "+"%char else "/"%char.

Fixpoint base64 (fuel : nat) (bs : list N) : string :=
  match fuel, bs with
  | S f, a :: b :: c :: r =>
      let x := N.shiftl a 16 + N.shiftl b 8 + c in
      String (b64_char (N.shiftr x 18))
        (String (b64_char (N.shiftr x 12 mod 64))
           (String (b64_char (N.shiftr x 6 mod 64))
              (String (b64_char (x mod 64)) (base64 f r))))
  | S f, [a; b] =>
      let x := N.shiftl a 16 + N.shiftl b 8 in
      String (b64_char (N.shiftr x 18))
        (String (b64_char (N.shiftr x 12 mod 64))
           (String (b64_char (N.shiftr x 6 mod 64)) "="))
  | S f, [a] =>
      let x := N.shiftl a 16 in
      String (b64_char (N.shiftr x 18))
        (String (b64_char (N.shiftr x 12 mod 64)) "==")
  | _, _ => ""
  end.

(** [etag(entity, {weak: true})] for a non-empty entity. *)
Definition weak (entity : string) : string :=
  let digest := sha1 (bytes_of entity) in
  ("W/" +:+ quoted (to_hex (byte_length entity) +:+ "-"
               +:+ String.substring 0 27 (base64 (length digest) digest)))%string.

End Etag.

(** ** HTTP messages as the framework hands them to the application

    Header names are the lower-case keys of [req.headers]; [path] is the
    URL path name without the query string ([req.path]); [payload] holds
    the bytes of the body as they are once the transfer coding is undone
    (the content coding and the character set are the parser's matter). *)

Module Http.

(** The methods a request listener sees that matter here; any further
    extension method is treated by this application like [POST], but for
    its name on the page of the final handler. *)
Inductive Method := GET | HEAD | POST | PUT | PATCH | DELETE | OPTIONS | TRACE.

#[global] Instance Method_eq_dec : EqDecision Method.
Proof. solve_decision. Defined.

Record Request := mkRequest {
  method : Method;
  path : string;
  headers : gmap string string;
  payload : string
}.

(** [req.body]: [ParsedFrom s] stands for the value of [JSON.parse(s)]
    (the empty object for the empty text). *)
Inductive ParsedBody := NotParsed | ParsedFrom (text : string).

Record Req := mkReq { wire : Request; body : ParsedBody }.

(** What [res.end] wrote.  The HTML pages of the final handler are kept
    symbolic: [NotFoundPage m p] stands for the text
    [Express.not_found_page m p], [ErrorPage st] for the page of an error
    with that status. *)
Inductive Entity :=
| NoEntity
| Text (s : string)
| NotFoundPage (m : Method) (p : string)
| ErrorPage (status : Z).

Record Res := mkRes {
  statusCode : Z;
  resHeaders : gmap string string;
  sent : Entity
}.

Definition setStatus (st : Z) (res : Res) : Res :=
  mkRes st (resHeaders res) (sent res).

Definition setHeader (k v : string) (res : Res) : Res :=
  mkRes (statusCode res) (<[k := v]> (resHeaders res)) (sent res).

Definition removeHeader (k : string) (res : Res) : Res :=
  mkRes (statusCode res) (delete k (resHeaders res)) (sent res).

Definition getHeader (k : string) (res : Res) : option string :=
  resHeaders res !! k.

Definition end_with (e : Entity) (res : Res) : Res :=
  mkRes (statusCode res) (resHeaders res) e.

(** JavaScript truthiness of a header value: defined and not empty. *)
Definition truthy (o : option string) : bool :=
  match o with
  | Some s => negb (String.eqb s "")
  | None => false
  end.

End Http.

(** ** The framework: layers, [res.send], final handler (Express 4)

    After [express/lib/application.js], [router/index.js] and
    [router/route.js] (the stack and its walk), [response.js] ([res.send]),
    [request.js] ([req.fresh]) and the packages [fresh], [etag] and
    [finalhandler]. *)

Module Express.
Import Http.

(** What a layer does with a request: [next()], [next(err)] with the
    status of the error, or the end of the response. *)
Inductive Outcome :=
| Next (req : Req) (res : Res)
| NextErr (status : Z) (req : Req) (res : Res)
| End (res : Res).

Definition Middleware : Type := Req -> Res -> Outcome.

(** A layer of the stack: mounted with [app.use] for every path, or a route
    for a method and a path pattern. *)
Inductive Layer :=
| Use (fn : Middleware)
| Route (m : Method) (pattern : string) (fn : Middleware).

Definition App : Type := list Layer.

Definition express : App := [].

Definition app_use (app : App) (fn : Middleware) : App := (app ++ [Use fn])%list.

Definition app_get (app : App) (pattern : string) (fn : Middleware) : App :=
  (app ++ [Route GET pattern fn])%list.

(** *** Conditional requests ([fresh] 0.5.2) *)

Definition parse_token_list (s : string) : list string :=
  map (trim_with is_space) (split_on "," s).

(** [/(?:^|,)\s*?no-cache\s*?(?:,|$)/.test(v)] *)
Definition no_cache (v : string) : bool :=
  existsb (fun d => String.eqb (trim_with is_regex_space d) "no-cache")
    (split_on "," v).

Definition etag_matches (none_match etag : string) : bool :=
  existsb
    (fun m => String.eqb m etag || String.eqb m ("W/" +:+ etag)
              || String.eqb ("W/" +:+ m) etag)
    (parse_token_list none_match).

(** [fresh(reqHeaders, {etag, 'last-modified': undefined})]: no layer of
    this application sets [Last-Modified], so a request that carries
    [If-Modified-Since] is always stale. *)
Definition fresh (reqh : gmap string string) (etag : option string) : bool :=
  let modifiedSince := reqh !! "if-modified-since" in
  let noneMatch := reqh !! "if-none-match" in
  if negb (truthy modifiedSince) && negb (truthy noneMatch) then false
  else if truthy (reqh !! "cache-control")
          && no_cache (default "" (reqh !! "cache-control")) then false
  else if truthy noneMatch
          && negb (String.eqb (default "" noneMatch) "*")
          && negb (match etag with
                   | Some e => truthy etag
                               && etag_matches (default "" noneMatch) e
                   | None => false
                   end) then false
  else if truthy modifiedSince then false
  else true.

(** [req.fresh] *)
Definition req_fresh (req : Req) (res : Res) : bool :=
  match method (wire req) with
  | GET | HEAD =>
      if ((200 <=? statusCode res) && (statusCode res <? 300)
          || (statusCode res =? 304))%Z
      then fresh (headers (wire req)) (getHeader "etag" res)
      else false
  | _ => false
  end.

(** *** [res.send(chunk)] for a string

    A content type set by an earlier layer is kept as it is (the framework
    would add the character set to it; no layer of this application sets
    one). *)

Definition res_send (req : Req) (res : Res) (chunk : string) : Res :=
  let res :=
    if truthy (getHeader "content-type" res) then res
    else setHeader "content-type" "text/html; charset=utf-8" res in
  let res := setHeader "content-length" (to_dec (byte_length chunk)) res in
  let res :=
    if truthy (getHeader "etag" res) then res
    else setHeader "etag" (Etag.weak chunk) res in
  let res := if req_fresh req res then setStatus 304 res else res in
  let '(res, chunk) :=
    if ((statusCode res =? 204) || (statusCode res =? 304))%Z then
      (removeHeader "transfer-encoding"
         (removeHeader "content-length" (removeHeader "content-type" res)),
       "")
    else (res, chunk) in
  let '(res, chunk) :=
    if (statusCode res =? 205)%Z then
      (removeHeader "transfer-encoding" (setHeader "content-length" "0" res),
       "")
    else (res, chunk) in
  match method (wire req) with
  | HEAD => end_with NoEntity res
  | _ => end_with (Text chunk) res
  end.

(** *** The final handler ([finalhandler] 1.2, with [encodeurl] 1.0 and
    [escape-html])

    The page of a request no layer has answered shows
    [Cannot <METHOD> <path>], the path run through [encodeUrl] and the
    line through [escapeHtml]. *)

Definition method_name (m : Method) : string :=
  match m with
  | GET => "GET"
  | HEAD => "HEAD"
  | POST => "POST"
  | PUT => "PUT"
  | PATCH => "PATCH"
  | DELETE => "DELETE"
  | OPTIONS => "OPTIONS"
  | TRACE => "TRACE"
  end.

(** [encodeURI] on one character of a Latin-1 string: its reserved and
    unreserved characters stay, any other becomes the bytes of its UTF-8
    form, each as [%XX]. *)
Definition encodeURI_char (c : ascii) : string :=
  if is_alnum c || one_of ";,/?:@&=+$-_.!~*'()#" c then String c EmptyString
  else if (code c <? 128)%nat then percent (code c)
  else percent (192 + code c / 64) +:+ percent (128 + code c mod 64).

(** The characters [ENCODE_CHARS_REGEXP] leaves alone:
    [\x21\x25\x26-\x3B\x3D\x3F-\x5B\x5D\x5F\x61-\x7A\x7E]. *)
Definition url_safe (c : ascii) : bool :=
  (code c =? 33)%nat || (code c =? 37)%nat || between 38 59 c
  || (code c =? 61)%nat || between 63 91 c || (code c =? 93)%nat
  || (code c =? 95)%nat || between 97 122 c || (code c =? 126)%nat.

(** [encodeUrl]: every run matched by
    [(?:[^safe]|%(?:[^0-9A-Fa-f]|[0-9A-Fa-f][^0-9A-Fa-f]|$))+] goes through
    [encodeURI]; a percent sign that does not start an escape takes the one
    or two characters after it into the run. *)
Fixpoint encode_url (l : list ascii) : string :=
  match l with
  | [] => EmptyString
  | c :: r =>
      if Ascii.eqb c "%" then
        match r with
        | [] => encodeURI_char c
        | a :: r1 =>
            if negb (is_hex a) then
              encodeURI_char c +:+ encodeURI_char a +:+ encode_url r1
            else
              match r1 with
              | [] => String c (encode_url r)
              | b :: r2 =>
                  if negb (is_hex b) then
                    encodeURI_char c +:+ encodeURI_char a
                    +:+ encodeURI_char b +:+ encode_url r2
                  else String c (encode_url r)
              end
        end
      else if url_safe c then String c (encode_url r)
      else encodeURI_char c +:+ encode_url r
  end.

Fixpoint escape_html (s : string) : string :=
  match s with
  | EmptyString => EmptyString
  | String c r =>
      (if Ascii.eqb c dquote then "&quot;"
       else if Ascii.eqb c "&" then "&amp;"
       else if Ascii.eqb c "'" then "&#39;"
       else if Ascii.eqb c "<" then "&lt;"
       else if Ascii.eqb c ">" then "&gt;"
       else String c EmptyString) +:+ escape_html r
  end.

(** [createHtmlDocument(message)].  Its two replacements (a line feed by
    [<br>], two blanks by a blank and [&nbsp;]) find nothing in the line of
    a page not found, [encodeUrl] leaving neither in the path. *)
Definition html_document (message : string) : string :=
  "<!DOCTYPE html>" +:+ nl
  +:+ "<html lang=" +:+ quoted "en" +:+ ">" +:+ nl
  +:+ "<head>" +:+ nl
  +:+ "<meta charset=" +:+ quoted "utf-8" +:+ ">" +:+ nl
  +:+ "<title>Error</title>" +:+ nl
  +:+ "</head>" +:+ nl
  +:+ "<body>" +:+ nl
  +:+ "<pre>" +:+ escape_html message +:+ "</pre>" +:+ nl
  +:+ "</body>" +:+ nl
  +:+ "</html>" +:+ nl.

Definition not_found_page (m : Method) (p : string) : string :=
  html_document
    ("Cannot " +:+ method_name m +:+ " "
     +:+ encode_url (list_ascii_of_string p)).

Definition final_headers (res : Res) : Res :=
  let res := removeHeader "content-encoding" res in
  let res := removeHeader "content-language" res in
  let res := removeHeader "content-range" res in
  let res := setHeader "content-security-policy" "default-src 'none'" res in
  let res := setHeader "x-content-type-options" "nosniff" res in
  setHeader "content-type" "text/html; charset=utf-8" res.

Definition is_error_status (st : Z) : bool := ((400 <=? st) && (st <? 600))%Z.

(** The length of the page is set before the method is looked at, so the
    answer to [HEAD] carries the length of its own page. *)
Definition final_not_found (req : Req) (res : Res) : Res :=
  let res := final_headers (setStatus 404 res) in
  let page := not_found_page (method (wire req)) (path (wire req)) in
  let res := setHeader "content-length" (to_dec (byte_length page)) res in
  match method (wire req) with
  | HEAD => end_with NoEntity res
  | m => end_with (NotFoundPage m (path (wire req))) res
  end.

(** The page of an error shows the stack of the error, or the name of the
    status when [NODE_ENV] is [production].  Neither text is known here, so
    of the headers of that answer [resHeaders] holds all but the
    [Content-Length], which the handler sets to the length of the page. *)
Definition final_error (status : Z) (req : Req) (res : Res) : Res :=
  let st :=
    if is_error_status status then status
    else if is_error_status (statusCode res) then statusCode res
    else 500%Z in
  let res := final_headers (setStatus st res) in
  match method (wire req) with
  | HEAD => end_with NoEntity res
  | _ => end_with (ErrorPage st) res
  end.

(** *** The router *)

(** A route registered with [app.get] also serves [HEAD]. *)
Definition handles_method (route_m req_m : Method) : bool :=
  bool_decide (req_m = route_m)
  || bool_decide (req_m = HEAD) && bool_decide (route_m = GET).

Definition strip_slash (p : string) : string :=
  match rev (list_ascii_of_string p) with
  | c :: r => if Ascii.eqb c "/" then string_of_list_ascii (rev r) else p
  | [] => p
  end.

(** Literal patterns, not strict (an optional trailing slash), not case
    sensitive: for the pattern "/" the expression [^\/?$]. *)
Definition match_path (pattern p : string) : bool :=
  String.eqb (lower (strip_slash p)) (lower (strip_slash pattern)).

(** Who ended the response. *)
Inductive Via :=
| ByUse (i : nat)
| ByRoute (i : nat) (m : Method) (pattern : string)
| ByNotFound
| ByErrorHandler.

(** [next()] walks the stack; [next(err)] goes to the final handler, as no
    error-handling layer can be registered in this model.  The router's own
    reply to an [OPTIONS] request that no layer has answered is left out:
    in this application the first layer ends every [OPTIONS] request. *)
Fixpoint handle (stack : list Layer) (i : nat) (req : Req) (res : Res)
  : Via * Res :=
  match stack with
  | [] => (ByNotFound, final_not_found req res)
  | Use fn :: rest =>
      match fn req res with
      | Next req' res' => handle rest (S i) req' res'
      | NextErr st req' res' => (ByErrorHandler, final_error st req' res')
      | End res' => (ByUse i, res')
      end
  | Route m pattern fn :: rest =>
      if handles_method m (method (wire req))
         && match_path pattern (path (wire req)) then
        match fn req res with
        | Next req' res' => handle rest (S i) req' res'
        | NextErr st req' res' => (ByErrorHandler, final_error st req' res')
        | End res' => (ByRoute i m pattern, res')
        end
      else handle rest (S i) req res
  end.

(** [app.handle]: a new response object, [X-Powered-By] set. *)
Definition app_handle (app : App) (r : Request) : Via * Res :=
  handle app 0 (mkReq r NotParsed)
    (mkRes 200 {["x-powered-by" := "Express"]} NoEntity).

End Express.

(** ** [cors()] (cors 2.8), for string origins

    After [cors/lib/index.js]: [configureOrigin], [configureMethods],
    [configureAllowedHeaders] and the middleware itself; [credentials],
    [maxAge] and [exposedHeaders] are unset by default and add nothing. *)

Module Cors.
Import Http Express.

Record Options := mkOptions {
  origin : string;
  methods : string;
  preflightContinue : bool;
  optionsSuccessStatus : Z
}.

Definition defaults : Options :=
  mkOptions "*" "GET,HEAD,PUT,PATCH,POST,DELETE" false 204.

(** [vary(res, field)] for one field name. *)
Definition vary (field : string) (res : Res) : Res :=
  let header := default "" (getHeader "vary" res) in
  let vals := parse_token_list (lower header) in
  let val :=
    if String.eqb header "*" then header
    else if existsb (String.eqb "*") vals then "*"
    else if existsb (String.eqb (lower field)) vals then header
    else if String.eqb header "" then field
    else header +:+ ", " +:+ field in
  if String.eqb val "" then res else setHeader "vary" val res.

Definition configureOrigin (o : Options) (res : Res) : Res :=
  if String.eqb (origin o) "" || String.eqb (origin o) "*" then
    setHeader "access-control-allow-origin" "*" res
  else
    vary "Origin" (setHeader "access-control-allow-origin" (origin o) res).

Definition configureMethods (o : Options) (res : Res) : Res :=
  if String.eqb (methods o) "" then res
  else setHeader "access-control-allow-methods" (methods o) res.

(** No [allowedHeaders] option: the request's own list is reflected. *)
Definition configureAllowedHeaders (req : Req) (res : Res) : Res :=
  let res := vary "Access-Control-Request-Headers" res in
  let asked := headers (wire req) !! "access-control-request-headers" in
  if truthy asked then
    setHeader "access-control-allow-headers" (default "" asked) res
  else res.

Definition cors (o : Options) : Middleware := fun req res =>
  match method (wire req) with
  | OPTIONS =>
      let res := configureOrigin o res in
      let res := configureMethods o res in
      let res := configureAllowedHeaders req res in
      if preflightContinue o then Next req res
      else
        End (end_with NoEntity
               (setHeader "content-length" "0"
                  (setStatus (optionsSuccessStatus o) res)))
  | _ => Next req (configureOrigin o res)
  end.

End Cors.

(** ** [express.json()] (body-parser 1.20)

    After [body-parser/lib/types/json.js] and [lib/read.js], with [type-is]
    and [media-typer] for the media type, [content-type] for the character
    set and [raw-body] for the size limit.

    The model follows the parser on every request but for three things it
    does not have: parameters of a content type written as quoted strings
    (a content type that holds one counts as well formed, its parameters
    are not read), the inflation of a [gzip] or [deflate] body, and the
    decoders of [iconv-lite] for the UTF character sets other than UTF-8
    (such bodies are taken as they are).  [plain] holds of the requests
    that need none of them, and the properties of the parser are stated
    for these. *)

Module BodyParser.
Import Http Express.

Record Options := mkOptions { limit : N; strict : bool; type : string }.

Definition defaults : Options := mkOptions 102400 true "application/json".

(** [typeis.hasBody(req)] *)
Definition hasBody (r : Request) : bool :=
  bool_decide (is_Some (headers r !! "transfer-encoding"))
  || bool_decide (is_Some (headers r !! "content-length")).

(** *** The content type *)

(** The token characters of the parameter expressions. *)
Definition is_tchar (c : ascii) : bool :=
  is_alnum c || one_of "!#$%&'*+-.^_`|~" c.

Definition is_token (s : string) : bool :=
  negb (String.eqb s "") && forallb is_tchar (list_ascii_of_string s).

(** A name of [media-typer]: a letter or digit, then at most 126
    characters that are letters, digits or among [more]. *)
Definition is_name (more : string) (s : string) : bool :=
  match list_ascii_of_string s with
  | c :: r =>
      is_alnum c && forallb (fun x => is_alnum x || one_of more x) r
      && (length r <=? 126)%nat
  | [] => false
  end.

(** [typer.format(typer.parse(t))] without the parameters, for the text
    [t] before the first semicolon: lower case, blanks around it dropped,
    [type/subtype] checked and written again with the suffix after the last
    plus sign, if that is not empty.  [None] when [media-typer] throws. *)
Definition normalize_type (t : string) : option string :=
  match split_on "/" (lower (trim_with is_space t)) with
  | [ty; sub] =>
      if is_name "!#$&^_-" ty && is_name "!#$&^_.+-" sub then
        match split_on "+" sub with
        | [s] => Some (ty +:+ "/" +:+ s)
        | [s; suffix] =>
            if String.eqb suffix "" then Some (ty +:+ "/" +:+ s)
            else if is_name "!#$&^_-" suffix
            then Some (ty +:+ "/" +:+ s +:+ "+" +:+ suffix)
            else None
        | _ => None
        end
      else None
  | _ => None
  end.

Definition has_quote (v : string) : bool :=
  existsb (Ascii.eqb dquote) (list_ascii_of_string v).

(** One parameter [ *name *= *value *] with a token for its value; the
    name in lower case. *)
Definition parse_param (seg : string) : option (string * string) :=
  match split_on "=" seg with
  | [k; v] =>
      let k := trim_with is_space k in
      let v := trim_with is_space v in
      if is_token k && is_token v then Some (lower k, v) else None
  | _ => None
  end.

(** The parameters of a content type, [None] when they are malformed (the
    parsers throw).  A value that holds a quoted string is not read: it
    counts as well formed, without parameters. *)
Definition parameters (v : string) : option (list (string * string)) :=
  if has_quote v then Some []
  else mapM parse_param (tail (split_on ";" v)).

(** [typeis(req, [type])]: the media type of the request, parameters
    dropped and normalised, is [type o]. *)
Definition shouldParse (o : Options) (r : Request) : bool :=
  match headers r !! "content-type" with
  | Some v =>
      if String.eqb v "" then false
      else
        match normalize_type (hd "" (split_on ";" v)), parameters v with
        | Some t, Some _ => String.eqb t (type o)
        | _, _ => false
        end
  | None => false
  end.

(** [getCharset(req) || 'utf-8']: the last [charset] parameter in lower
    case, UTF-8 when there is none or the content type does not parse. *)
Definition charset (r : Request) : string :=
  let given :=
    match headers r !! "content-type" with
    | Some v =>
        fold_left
          (fun found kv =>
             if String.eqb (fst kv) "charset" then lower (snd kv) else found)
          (default [] (parameters v)) ""
    | None => ""
    end in
  if String.eqb given "" then "utf-8" else given.

(** [(req.headers['content-encoding'] || 'identity').toLowerCase()] *)
Definition contentEncoding (r : Request) : string :=
  lower (if truthy (headers r !! "content-encoding")
         then default "" (headers r !! "content-encoding")
         else "identity").

(** *** The body *)

(** The byte order mark of UTF-8, which the decoder drops. *)
Definition bom : string :=
  String (Ascii.ascii_of_nat 239)
    (String (Ascii.ascii_of_nat 187)
       (String (Ascii.ascii_of_nat 191) EmptyString)).

(** The text of a UTF-8 body.  Bytes that are not UTF-8 become U+FFFD in
    the real text; they are kept here, as [Json.valid] takes every byte
    above 127 the same way. *)
Definition decode (s : string) : string :=
  if String.prefix bom s then substring 3 (String.length s - 3) s else s.

Definition firstchar (s : string) : option ascii :=
  hd_error (drop_while Json.is_ws (list_ascii_of_string s)).

Definition parse (o : Options) (s : string) : option ParsedBody :=
  if String.eqb s "" then Some (ParsedFrom "")
  else if strict o
          && negb (match firstchar s with
                   | Some c => Ascii.eqb c "{" || Ascii.eqb c "["
                   | None => false
                   end) then None
  else if Json.valid s then Some (ParsedFrom s)
  else None.

(** [read(req, res, next, parse, debug, options)]: the content coding is
    looked at first, then the size, then the text. *)
Definition read (o : Options) : Middleware := fun req res =>
  let coding := contentEncoding (wire req) in
  if negb (String.eqb coding "deflate" || String.eqb coding "gzip"
           || String.eqb coding "identity") then NextErr 415 req res
  else if (limit o <? byte_length (payload (wire req)))%N then
    NextErr 413 req res
  else
    match parse o (decode (payload (wire req))) with
    | Some b => Next (mkReq (wire req) b) res
    | None => NextErr 400 req res
    end.

Definition json (o : Options) : Middleware := fun req res =>
  match body req with
  | ParsedFrom _ => Next req res
  | NotParsed =>
      if negb (hasBody (wire req)) then Next req res
      else if negb (shouldParse o (wire req)) then Next req res
      else if negb (String.eqb (substring 0 4 (charset (wire req))) "utf-")
      then NextErr 415 req res
      else read o req res
  end.

(** The status with which the parser refuses a request, [None] when it
    calls [next()]. *)
Definition rejects (o : Options) (r : Request) : option Z :=
  match json o (mkReq r NotParsed) (mkRes 200 ∅ NoEntity) with
  | NextErr st _ _ => Some st
  | _ => None
  end.

(** The character set or the content coding is one the parser refuses
    before it reads anything (status 415). *)
Definition unsupported (r : Request) : bool :=
  negb (String.eqb (substring 0 4 (charset r)) "utf-")
  || negb (String.eqb (contentEncoding r) "deflate"
           || String.eqb (contentEncoding r) "gzip"
           || String.eqb (contentEncoding r) "identity").

(** A [Content-Length], when there is one, is the length of the body in
    decimal: Node frames the body by it, and the reader compares the
    announced length with the limit. *)
Definition framed (r : Request) : bool :=
  match headers r !! "content-length" with
  | Some v => String.eqb v (to_dec (byte_length (payload r)))
  | None => true
  end.

(** The requests on which the model is the parser: those it does not read
    and, of those it reads, the well-framed ones with no quoted string in
    the content type that it either refuses unread or finds in UTF-8, not
    coded, and without a byte order mark (whether the decoder drops the
    mark, as [decode] has it, depends on the version of [iconv-lite]). *)
Definition plain (o : Options) (r : Request) : bool :=
  negb (hasBody r && shouldParse o r)
  || negb (has_quote (default "" (headers r !! "content-type")))
     && framed r
     && (unsupported r
         || String.eqb (charset r) "utf-8"
            && String.eqb (contentEncoding r) "identity"
            && negb (String.prefix bom (payload r))).

End BodyParser.

(** ** The process: [server.js] and the events delivered to it *)

Module Server.
Import Http Express.

(** The value of [PORT]: a string from the environment or the number
    literal. *)
Inductive JsValue := JsString (s : string) | JsNumber (n : N).

(** Template-literal conversion. *)
Definition to_string (v : JsValue) : string :=
  match v with
  | JsString s => s
  | JsNumber n => to_dec n
  end.

Definition Console : Type := list string.

Definition console_log (line : string) : Console -> Console :=
  fun out => (out ++ [line])%list.

(** Calls of the script into its collaborators, in program order. *)
Inductive Action :=
| DotenvConfig
| CreateApp
| AppUse
| AppGet (pattern : string)
| Authenticate
| Listen (port : JsValue).

(** The promise of the connectivity check. *)
Inductive DbCheck := NotStarted | Pending | Settled.

(** The server socket: not opened (or given up), bind requested, bound and
    accepting. *)
Inductive Listener := Closed | Binding (port : JsValue) | Bound (port : JsValue).

(** The state of the process: [process.env], the application object, what
    the script's [console.log] calls wrote, the calls made so far, the
    promise with the callbacks chained on it, the listener with the
    callback of [app.listen] and the listeners of the server's [error]
    event, whether the process has exited, the requests answered so far,
    the application setting [env], and what the framework wrote with
    [console.error]: one entry for each stack of an error, named by the
    request that raised the error and the status of its answer. *)
Record Proc := mkProc {
  env : gmap string string;
  dotenv_file : option (gmap string string);
  app : App;
  console : Console;
  trace : list Action;
  db : DbCheck;
  on_fulfilled : option (Console -> Console);
  on_rejected : option (string -> Console -> Console);
  listener : Listener;
  on_listening : option (Console -> Console);
  on_error : list (string -> Console -> Console);
  exited : bool;
  served : list (Request * (Via * Res));
  app_env : string;
  console_error : list (Request * Z)
}.

(** A process before the first statement: [os_env] is the environment it
    was started with, [file] the parsed [.env] file, if there is one. *)
Definition spawn (os_env : gmap string string)
    (file : option (gmap string string)) : Proc :=
  mkProc os_env file express [] [] NotStarted None None Closed None [] false []
    "development" [].

(** *** Statements *)

Definition M (A : Type) : Type := Proc -> A * Proc.

#[local] Instance M_ret : MRet M := fun A a p => (a, p).

#[local] Instance M_bind : MBind M := fun A B k c p =>
  let '(a, p') := c p in k a p'.

Definition record (a : Action) (p : Proc) : Proc :=
  mkProc (env p) (dotenv_file p) (app p) (console p) (trace p ++ [a])%list
    (db p) (on_fulfilled p) (on_rejected p) (listener p) (on_listening p)
    (on_error p) (exited p) (served p) (app_env p) (console_error p).

Definition with_app (a : App) (p : Proc) : Proc :=
  mkProc (env p) (dotenv_file p) a (console p) (trace p)
    (db p) (on_fulfilled p) (on_rejected p) (listener p) (on_listening p)
    (on_error p) (exited p) (served p) (app_env p) (console_error p).

Definition with_console (c : Console) (p : Proc) : Proc :=
  mkProc (env p) (dotenv_file p) (app p) c (trace p)
    (db p) (on_fulfilled p) (on_rejected p) (listener p) (on_listening p)
    (on_error p) (exited p) (served p) (app_env p) (console_error p).

(** [require("dotenv").config()]: variables of the file are added, those
    already set are kept; no file is no error. *)
Definition dotenv_config : M unit := fun p =>
  let p := record DotenvConfig p in
  (tt, mkProc (env p ∪ default ∅ (dotenv_file p)) (dotenv_file p) (app p)
         (console p) (trace p) (db p) (on_fulfilled p) (on_rejected p)
         (listener p) (on_listening p) (on_error p) (exited p) (served p)
         (app_env p) (console_error p)).

(** [const app = express()]; the new application takes its setting [env]
    from [process.env.NODE_ENV || 'development']. *)
Definition create_app : M unit := fun p =>
  let p := with_app express (record CreateApp p) in
  (tt, mkProc (env p) (dotenv_file p) (app p) (console p) (trace p)
         (db p) (on_fulfilled p) (on_rejected p) (listener p) (on_listening p)
         (on_error p) (exited p) (served p)
         (if truthy (env p !! "NODE_ENV")
          then default "" (env p !! "NODE_ENV") else "development")
         (console_error p)).

(** [app.use(fn)] *)
Definition use (fn : Middleware) : M unit := fun p =>
  (tt, with_app (app_use (app p) fn) (record AppUse p)).

(** [app.get(pattern, fn)] *)
Definition get (pattern : string) (fn : Middleware) : M unit := fun p =>
  (tt, with_app (app_get (app p) pattern fn) (record (AppGet pattern) p)).

(** Modelled from the spec: [./config/database] is not among the sources;
    its handle exposes an [authenticate()] operation that returns a
    success/failure outcome asynchronously.  The call starts the check and
    chains [.then(ok).catch(failed)] on the promise. *)
Definition authenticate (ok : Console -> Console)
    (failed : string -> Console -> Console) : M unit := fun p =>
  let p := record Authenticate p in
  (tt, mkProc (env p) (dotenv_file p) (app p) (console p) (trace p)
         Pending (Some ok) (Some failed) (listener p) (on_listening p)
         (on_error p) (exited p) (served p) (app_env p) (console_error p)).

(** [process.env[name] || fallback] *)
Definition env_or (name : string) (fallback : JsValue) : M JsValue := fun p =>
  (match env p !! name with
   | Some v => if String.eqb v "" then fallback else JsString v
   | None => fallback
   end, p).

(** [app.listen(port, cb)]: the bind is requested, [cb] waits for the
    [listening] event; no [error] listener is added. *)
Definition listen (port : JsValue) (cb : Console -> Console) : M unit :=
  fun p =>
  let p := record (Listen port) p in
  (tt, mkProc (env p) (dotenv_file p) (app p) (console p) (trace p)
         (db p) (on_fulfilled p) (on_rejected p) (Binding port) (Some cb)
         (on_error p) (exited p) (served p) (app_env p) (console_error p)).

(** *** The script *)

Definition greeting : string := "Movie Tracker API is running...".

Definition root : Middleware := fun req res => End (res_send req res greeting).

Definition server_js : M unit :=
  dotenv_config ;;
  create_app ;;
  use (Cors.cors Cors.defaults) ;;
  use (BodyParser.json BodyParser.defaults) ;;
  get "/" root ;;
  authenticate
    (console_log "Database connected...")
    (fun err => console_log ("Error: " +:+ err)) ;;
  PORT ← env_or "PORT" (JsNumber 5001);
  listen PORT (console_log ("Server running on port " +:+ to_string PORT)).

Definition startup (os_env : gmap string string)
    (file : option (gmap string string)) : Proc :=
  snd (server_js (spawn os_env file)).

(** *** Events of the run time *)

(** How the promise of [authenticate()] settles; [description] is the
    rejection reason as string concatenation renders it. *)
Inductive AuthResult := AuthOk | AuthErr (description : string).

(** What the run time delivers to the process once the script has run:
    the promise of the check settles, the bind succeeds or fails, a request
    has come in as far as its answer needs it (its head, and its body when
    the parser reads it). *)
Inductive Event :=
| DbSettled (r : AuthResult)
| Listening
| BindError (description : string)
| Incoming (r : Request).

Definition call (cb : option (Console -> Console)) (p : Proc) : Proc :=
  match cb with
  | Some f => with_console (f (console p)) p
  | None => p
  end.

(** The promise settles once: then the matching callback runs. *)
Definition settle (r : AuthResult) (p : Proc) : Proc :=
  let p :=
    match r with
    | AuthOk => call (on_fulfilled p) p
    | AuthErr e => call (option_map (fun f => f e) (on_rejected p)) p
    end in
  mkProc (env p) (dotenv_file p) (app p) (console p) (trace p)
    Settled (on_fulfilled p) (on_rejected p) (listener p) (on_listening p)
    (on_error p) (exited p) (served p) (app_env p) (console_error p).

Definition bound (port : JsValue) (p : Proc) : Proc :=
  let p := call (on_listening p) p in
  mkProc (env p) (dotenv_file p) (app p) (console p) (trace p)
    (db p) (on_fulfilled p) (on_rejected p) (Bound port) (on_listening p)
    (on_error p) (exited p) (served p) (app_env p) (console_error p).

(** An [error] event of the server: its listeners run; with none the
    error is thrown, nothing catches it and the process exits. *)
Definition bind_failed (e : string) (p : Proc) : Proc :=
  match on_error p with
  | [] =>
      mkProc (env p) (dotenv_file p) (app p) (console p) (trace p)
        (db p) (on_fulfilled p) (on_rejected p) Closed (on_listening p)
        (on_error p) true (served p) (app_env p) (console_error p)
  | fs =>
      mkProc (env p) (dotenv_file p) (app p)
        (fold_left (fun out f => f e out) fs (console p)) (trace p)
        (db p) (on_fulfilled p) (on_rejected p) Closed (on_listening p)
        (on_error p) (exited p) (served p) (app_env p) (console_error p)
  end.

(** [logerror], which [app.handle] gives the final handler to call with
    every error that reaches it: the stack is written with [console.error]
    unless the setting [env] is [test]. *)
Definition logerror (r : Request) (a : Via * Res) (p : Proc)
  : list (Request * Z) :=
  match fst a with
  | ByErrorHandler =>
      if String.eqb (app_env p) "test" then console_error p
      else (console_error p ++ [(r, statusCode (snd a))])%list
  | _ => console_error p
  end.

(** The application answers [r].  The answer is a function of the message
    alone, so the turns of the event loop over which a body is read are
    folded into the one event at which the answer is written; [served]
    lists the answers in the order in which they were written, which need
    not be the order in which the requests began to arrive. *)
Definition serve (r : Request) (p : Proc) : Proc :=
  let a := app_handle (app p) r in
  mkProc (env p) (dotenv_file p) (app p) (console p) (trace p)
    (db p) (on_fulfilled p) (on_rejected p) (listener p) (on_listening p)
    (on_error p) (exited p) (served p ++ [(r, a)])%list (app_env p)
    (logerror r a p).

Definition step (p : Proc) (ev : Event) : Proc :=
  if exited p then p
  else
    match ev with
    | DbSettled r =>
        match db p with
        | Pending => settle r p
        | _ => p
        end
    | Listening =>
        match listener p with
        | Binding port => bound port p
        | _ => p
        end
    | BindError e =>
        match listener p with
        | Binding _ => bind_failed e p
        | _ => p
        end
    | Incoming r =>
        match listener p with
        | Bound _ => serve r p
        | _ => p
        end
    end.

Definition run (p : Proc) (evs : list Event) : Proc := fold_left step evs p.

(** The application as the script leaves it, and its answer to a request. *)
Definition the_app : App := app (startup ∅ None).

Definition answer (r : Request) : Via * Res := app_handle the_app r.

Definition respond (r : Request) : Res := snd (answer r).

Definition via (r : Request) : Via := fst (answer r).

(** The response object as the first layer leaves it for the next. *)
Definition after_cors : Res :=
  mkRes 200
    (<["access-control-allow-origin" := "*"]> {["x-powered-by" := "Express"]})
    NoEntity.

(** The answer of the first layer to a preflight request. *)
Definition preflight (r : Request) : Res :=
  let base :=
    <["content-length" := "0"]>
      (<["vary" := "Access-Control-Request-Headers"]>
         (<["access-control-allow-methods" := Cors.methods Cors.defaults]>
            (resHeaders after_cors))) in
  let asked := headers r !! "access-control-request-headers" in
  mkRes 204
    (if truthy asked
     then <["access-control-allow-headers" := default "" asked]> base
     else base)
    NoEntity.

(** [req] as the parser hands it on. *)
Definition parsed (r : Request) : Req :=
  mkReq r
    (if BodyParser.hasBody r && BodyParser.shouldParse BodyParser.defaults r
     then ParsedFrom (BodyParser.decode (payload r)) else NotParsed).

(** The route pattern "/" matches the path. *)
Definition at_root (r : Request) : bool := match_path "/" (path r).

(** The request revalidates the greeting: [req.fresh] inside the handler. *)
Definition revalidates (r : Request) : bool :=
  fresh (headers r) (Some (Etag.weak greeting)).


(** The value the script binds to [PORT] in a process with this
    environment. *)
Definition PORT (e : gmap string string) : JsValue :=
  match e !! "PORT" with
  | Some v => if String.eqb v "" then JsNumber 5001 else JsString v
  | None => JsNumber 5001
  end.

(** The callbacks the script installs, for the port it chose. *)
Definition wired (port : JsValue) (p : Proc) : Prop :=
  app p = the_app
  /\ on_fulfilled p = Some (console_log "Database connected...")
  /\ on_rejected p = Some (fun err => console_log ("Error: " +:+ err))
  /\ on_listening p
     = Some (console_log ("Server running on port " +:+ to_string port))
  /\ on_error p = []
  /\ trace p
     = [DotenvConfig; CreateApp; AppUse; AppUse; AppGet "/"; Authenticate;
        Listen port]
  /\ (listener p = Closed \/ listener p = Binding port
      \/ listener p = Bound port)
  /\ (exited p = true -> listener p = Closed).

Definition with_db (d : DbCheck) (p : Proc) : Proc :=
  mkProc (env p) (dotenv_file p) (app p) (console p) (trace p)
    d (on_fulfilled p) (on_rejected p) (listener p) (on_listening p)
    (on_error p) (exited p) (served p) (app_env p) (console_error p).

(** The line the callbacks of the check write for an outcome. *)
Definition db_line (r : AuthResult) : string :=
  match r with
  | AuthOk => "Database connected..."
  | AuthErr e => "Error: " +:+ e
  end.

(** An outcome delivered now reaches the callbacks. *)
Definition awaits_db (p : Proc) : bool :=
  negb (exited p) && match db p with Pending => true | _ => false end.

(** The headers of the greeting, and of its revalidation. *)
Definition greeting_headers : gmap string string :=
  <["etag" := Etag.weak greeting]>
    (<["content-length" := "31"]>
       (<["content-type" := "text/html; charset=utf-8"]>
          (resHeaders after_cors))).

Definition not_modified_headers : gmap string string :=
  <["etag" := Etag.weak greeting]> (resHeaders after_cors).

(** *** Sample requests *)

Definition json_headers (len : string) : gmap string string :=
  <["content-type" := "application/json"]> {["content-length" := len]}.

Definition get_root : Request := mkRequest GET "/" ∅ "".


Definition get_root_any_etag : Request :=
  mkRequest GET "/" {["if-none-match" := "*"]} "".




Definition get_root_no_text : Request :=
  mkRequest GET "/" (json_headers "0") "".





End Server.

Import Http Express Server.

Local Open Scope list_scope.

(** Closes a goal [wired port q] where [q] is [p] with fields changed that
    the invariant does not read, or reads through a hypothesis. *)
Ltac wired_same := cbn; unfold wired in *; cbn; intuition congruence.

(** Closes a goal that asks for the lines an event wrote when it wrote
    none. *)
Ltac quiet := exists []; intros; rewrite !app_nil_r; reflexivity.

(** ** Further views of requests and runs *)

(** The same request with another method, header or body. *)
Definition with_method (m : Method) (r : Request) : Request :=
  mkRequest m (path r) (headers r) (payload r).

Definition with_header (k v : string) (r : Request) : Request :=
  mkRequest (method r) (path r) (<[k := v]> (headers r)) (payload r).

Definition with_payload (b : string) (r : Request) : Request :=
  mkRequest (method r) (path r) (headers r) b.

(** A body of [n] blanks. *)
Definition blanks (n : N) : string := N.iter n (String " ") "".

Definition post_movies_too_long : Request :=
  mkRequest POST "/movies" (json_headers "102401") (blanks 102401).


(** A request with a body of the given content type, coding and text. *)
Definition post_with (ct : string) (coding : option string) (text : string)
  : Request :=
  mkRequest POST "/movies"
    (<["content-type" := ct]>
       (match coding with
        | Some c =>
            <["content-encoding" := c]> {["transfer-encoding" := "chunked"]}
        | None => {["transfer-encoding" := "chunked"]}
        end))
    text.

Definition post_movies_latin1_too_long : Request :=
  post_with "application/json; charset=iso-8859-1" None (blanks 102401).

Definition nbsp : string := String (Ascii.ascii_of_nat 160) EmptyString.

Definition post_movies_text : Request :=
  mkRequest POST "/movies" (<["content-type" := "text/plain"]>
                              {["content-length" := "1"]}) "{".

(** * Properties *)

(** ** Sanity checks of the helpers *)

Example json_samples :
  map Json.valid
    [ "{}"; "[]"; "1"; "-0.5e+10"; "true"; "null"; quoted "a\né";
      "{" +:+ quoted "a" +:+ ": [1, 2, {" +:+ quoted "b" +:+ ":null}] }";
      " [ ] "; "[[],{}]" ]
  = repeat true 10
  /\ map Json.valid
    [ ""; "{"; "}"; "[1,]"; "01"; "1."; "-"; ".5"; "tru"; "nul l"; "{a:1}";
      "{" +:+ quoted "a" +:+ "}"; "{" +:+ quoted "a" +:+ ":1,}"; "[1 2]"; "1 2";
      quoted "\x"; quoted "\u12g4"; String dquote "abc"; "[}"; "   "; "'a'"; "+1";
      "1e"; "0x10"; "NaN"; "[" ]
  = repeat false 26.
Proof. split; vm_compute; reflexivity. Qed.

Example helper_samples :
  to_hex 31 = "1f" /\ to_hex 0 = "0" /\ to_hex 255 = "ff" /\ to_hex 4096 = "1000"
  /\ to_dec 5001 = "5001" /\ to_dec 0 = "0" /\ to_dec 31 = "31"
  /\ split_on "," "a, b,,c" = ["a"; " b"; ""; "c"]
  /\ split_on "," "" = [""]
  /\ trim_with is_space "  a b " = "a b"
  /\ lower "Application/JSON" = "application/json".
Proof. vm_compute. repeat split; reflexivity. Qed.

Example space_samples :
  no_cache "no-cache" = true /\ no_cache "max-age=0, no-cache" = true
  /\ no_cache (nbsp +:+ "no-cache") = true
  /\ no_cache ("a," +:+ nl +:+ "no-cache" +:+ nbsp +:+ ",b") = true
  /\ no_cache "no-cache=x" = false /\ no_cache "No-Cache" = false
  /\ parse_token_list (" a , b" +:+ nbsp) = ["a"; "b" +:+ nbsp].
Proof. vm_compute. repeat split; reflexivity. Qed.

(** The page of a request for a path without a route: 127 bytes around
    the line, whose path is escaped for a URL and then for HTML. *)
Example page_samples :
  byte_length (not_found_page GET "/") = 139%N
  /\ byte_length (not_found_page HEAD "/movies") = 146%N
  /\ encode_url (list_ascii_of_string "/a b/%41/%4/%zz%")
     = "/a%20b/%41/%254/%25zz%25"
  /\ encode_url (list_ascii_of_string "/[x]?y=1&z='#$") = "/[x]?y=1&z='#$"
  /\ encode_url (list_ascii_of_string ("/<" +:+ quoted "a" +:+ ">"))
     = "/%3C%22a%22%3E"
  /\ escape_html "Cannot GET /a&b'" = "Cannot GET /a&amp;b&#39;"
  /\ not_found_page GET "/"
     = "<!DOCTYPE html>" +:+ nl
       +:+ "<html lang=" +:+ quoted "en" +:+ ">" +:+ nl
       +:+ "<head>" +:+ nl
       +:+ "<meta charset=" +:+ quoted "utf-8" +:+ ">" +:+ nl
       +:+ "<title>Error</title>" +:+ nl
       +:+ "</head>" +:+ nl
       +:+ "<body>" +:+ nl
       +:+ "<pre>Cannot GET /</pre>" +:+ nl
       +:+ "</body>" +:+ nl
       +:+ "</html>" +:+ nl.
Proof. vm_compute. repeat split; reflexivity. Qed.

(** Content types as [express.json()] takes them: which it reads, in which
    character set, and what it answers to the two-byte body [{}] and to
    the one-byte body [{]. *)
Example content_type_samples :
  map (fun ct =>
         let r := post_with ct None "{}" in
         (BodyParser.shouldParse BodyParser.defaults r, BodyParser.charset r,
          BodyParser.rejects BodyParser.defaults r))
    [ "application/json"; "Application/JSON ; Charset = UTF-8";
      "application/json; charset=iso-8859-1"; "application/json; charset=utf8";
      "application/json;x"; "application/json;"; "application/json; a=b; c";
      "application/json+"; "application/vnd.api+json"; "application/jsonx";
      "text/plain"; ""; "application/json; charset=a; CHARSET=utf-8";
      "application/json; charset=utf-8; charset=latin1"; "application /json" ]
  = [ (true, "utf-8", None); (true, "utf-8", None);
      (true, "iso-8859-1", Some 415%Z); (true, "utf8", Some 415%Z);
      (false, "utf-8", None); (false, "utf-8", None); (false, "utf-8", None);
      (true, "utf-8", None); (false, "utf-8", None); (false, "utf-8", None);
      (false, "utf-8", None); (false, "utf-8", None); (true, "utf-8", None);
      (true, "latin1", Some 415%Z); (false, "utf-8", None) ]
  /\ map (fun c => BodyParser.rejects BodyParser.defaults
                     (post_with "application/json" c "{"))
       [ None; Some ""; Some "identity"; Some "Identity"; Some "br";
         Some "compress"; Some "gzip, identity" ]
     = [ Some 400%Z; Some 400%Z; Some 400%Z; Some 400%Z; Some 415%Z;
         Some 415%Z; Some 415%Z ]
  /\ map (fun text => BodyParser.rejects BodyParser.defaults
                        (post_with "application/json" None text))
       [ ""; " "; "{}"; " [1]"; "12"; "null"; quoted "a"; "{";
         BodyParser.bom +:+ "{}"; BodyParser.bom; blanks 102401 ]
     = [ None; Some 400%Z; None; None; Some 400%Z; Some 400%Z; Some 400%Z;
         Some 400%Z; None; None; Some 413%Z ]
  /\ map (fun r => BodyParser.plain BodyParser.defaults r)
       [ post_with "application/json" None "{";
         post_with "application/json; charset=iso-8859-1" None "{";
         post_with "application/json" (Some "br") "{";
         post_with "text/plain" (Some "gzip") "{";
         post_with "application/json" (Some "gzip") "{";
         post_with "application/json; charset=utf-16" None "{";
         post_with ("application/json; charset=" +:+ quoted "utf-8") None "{";
         post_with "application/json" None (BodyParser.bom +:+ "{");
         mkRequest POST "/movies" (json_headers "999999") "{}";
         mkRequest POST "/movies" (json_headers "2") "{}" ]
     = [ true; true; true; true; false; false; false; false; false; true ].
Proof. vm_compute. repeat split; reflexivity. Qed.

Example etag_samples :
  Etag.weak "Movie Tracker API is running..."
  = "W/" +:+ quoted "1f-PWmoty+qEQnWrZ2FeyrbbsDxvq4"
  /\ Etag.weak "abc" = "W/" +:+ quoted "3-qZk+NkcGgWq6PiVxeFDCbJzQ2J0".
Proof. vm_compute. split; reflexivity. Qed.

(** ** The layer stack *)

Lemma app_of_startup os_env file :
  app (startup os_env file)
  = [ Use (Cors.cors Cors.defaults);
      Use (BodyParser.json BodyParser.defaults);
      Route GET "/" root ].
Proof. reflexivity. Qed.

Lemma the_app_layers :
  the_app
  = [ Use (Cors.cors Cors.defaults);
      Use (BodyParser.json BodyParser.defaults);
      Route GET "/" root ].
Proof. reflexivity. Qed.

(** The verdict of the parser, check by check. *)
Lemma rejects_eq r :
  BodyParser.rejects BodyParser.defaults r
  = if negb (BodyParser.hasBody r
             && BodyParser.shouldParse BodyParser.defaults r) then None
    else if BodyParser.unsupported r then Some 415%Z
    else if (102400 <? byte_length (payload r))%N then Some 413%Z
    else
      match BodyParser.parse BodyParser.defaults
              (BodyParser.decode (payload r)) with
      | Some _ => None
      | None => Some 400%Z
      end.
Proof.
  unfold BodyParser.rejects, BodyParser.json, BodyParser.read,
    BodyParser.unsupported.
  cbn [body wire].
  destruct (BodyParser.hasBody r); cbn [negb andb]; [|reflexivity].
  destruct (BodyParser.shouldParse BodyParser.defaults r); cbn [negb];
    [|reflexivity].
  destruct (String.eqb (substring 0 4 (BodyParser.charset r)) "utf-");
    cbn [negb orb]; [|reflexivity].
  destruct (_ || _); cbn [negb]; [|reflexivity].
  change (BodyParser.limit BodyParser.defaults) with 102400%N.
  destruct (102400 <? byte_length (payload r))%N; [reflexivity|].
  destruct (BodyParser.parse _ _); reflexivity.
Qed.

(** What the parser accepts is the text it hands on. *)
Lemma parse_text o s b :
  BodyParser.parse o s = Some b -> b = ParsedFrom s.
Proof.
  unfold BodyParser.parse.
  destruct (String.eqb_spec s "") as [->|_]; [congruence|].
  destruct (_ && _); [discriminate|].
  destruct (Json.valid s); congruence.
Qed.

(** The parser's verdict does not depend on the response under way. *)
Lemma json_outcome r res :
  BodyParser.json BodyParser.defaults (mkReq r NotParsed) res
  = match BodyParser.rejects BodyParser.defaults r with
    | Some st => NextErr st (mkReq r NotParsed) res
    | None =>
        Next (mkReq r
                (if BodyParser.hasBody r
                    && BodyParser.shouldParse BodyParser.defaults r
                 then ParsedFrom (BodyParser.decode (payload r))
                 else NotParsed)) res
    end.
Proof.
  rewrite rejects_eq.
  unfold BodyParser.json, BodyParser.read, BodyParser.unsupported.
  cbn [body wire].
  destruct (BodyParser.hasBody r); cbn [negb andb]; [|reflexivity].
  destruct (BodyParser.shouldParse BodyParser.defaults r); cbn [negb];
    [|reflexivity].
  destruct (String.eqb (substring 0 4 (BodyParser.charset r)) "utf-");
    cbn [negb orb]; [|reflexivity].
  destruct (_ || _); cbn [negb]; [|reflexivity].
  change (BodyParser.limit BodyParser.defaults) with 102400%N.
  destruct (102400 <? byte_length (payload r))%N; [reflexivity|].
  destruct (BodyParser.parse _ _) as [b|] eqn:E; [|reflexivity].
  apply parse_text in E. subst b. reflexivity.
Qed.

(** Every request is answered in one of four ways. *)
Lemma answer_cases r :
  answer r
  = match method r with
    | OPTIONS => (ByUse 0, preflight r)
    | _ =>
        match BodyParser.rejects BodyParser.defaults r with
        | Some st =>
            (ByErrorHandler, final_error st (mkReq r NotParsed) after_cors)
        | None =>
            if handles_method GET (method r) && at_root r
            then (ByRoute 2 GET "/", res_send (parsed r) after_cors greeting)
            else (ByNotFound, final_not_found (parsed r) after_cors)
        end
    end.
Proof.
  unfold answer, app_handle. rewrite the_app_layers.
  destruct (method r) eqn:Hm;
    try (cbn [handle]; unfold Cors.cors at 1; cbn [wire method];
         rewrite Hm; cbn [Cors.defaults Cors.origin];
         change (Cors.configureOrigin _ _) with after_cors;
         rewrite json_outcome;
         destruct (BodyParser.rejects BodyParser.defaults r); [reflexivity|];
         cbn [handle wire]; fold (parsed r); rewrite Hm; unfold at_root;
         destruct (handles_method GET _ && match_path "/" (path r));
         reflexivity).
  cbn [handle]. unfold Cors.cors. cbn [wire method]. rewrite Hm.
  unfold preflight, Cors.configureAllowedHeaders. cbn [wire].
  destruct (truthy (headers r !! "access-control-request-headers"));
    reflexivity.
Qed.

(** ** The script and the events *)

Lemma env_of_startup os_env file :
  env (startup os_env file) = os_env ∪ default ∅ file.
Proof. reflexivity. Qed.

(** The process as the script leaves it. *)
Lemma startup_eq os_env file :
  startup os_env file
  = mkProc (os_env ∪ default ∅ file) file the_app []
      [DotenvConfig; CreateApp; AppUse; AppUse; AppGet "/"; Authenticate;
       Listen (PORT (os_env ∪ default ∅ file))]
      Pending
      (Some (console_log "Database connected..."))
      (Some (fun err => console_log ("Error: " +:+ err)))
      (Binding (PORT (os_env ∪ default ∅ file)))
      (Some (console_log ("Server running on port "
                          +:+ to_string (PORT (os_env ∪ default ∅ file)))))
      [] false []
      (if truthy ((os_env ∪ default ∅ file) !! "NODE_ENV")
       then default "" ((os_env ∪ default ∅ file) !! "NODE_ENV")
       else "development")
      [].
Proof. reflexivity. Qed.

Lemma wired_startup os_env file :
  wired (PORT (env (startup os_env file))) (startup os_env file).
Proof.
  unfold wired. repeat split; try reflexivity.
  - right; left; reflexivity.
  - discriminate.
Qed.

Lemma run_app p evs1 evs2 : run p (evs1 ++ evs2) = run (run p evs1) evs2.
Proof. apply fold_left_app. Qed.

Lemma run_exited p evs : exited p = true -> run p evs = p.
Proof.
  intros Hx. induction evs as [|ev evs IH]; [reflexivity|].
  cbn. unfold step at 2. rewrite Hx. exact IH.
Qed.

(** ** Start-up *)

(** C2. The port handed to [app.listen], and bound when the bind succeeds,
    is the string value of [PORT] in the process environment when that is
    set and not empty, and the number 5001 when it is unset or empty. *)
Theorem listening_port_from_environment os_env file :
  let p := startup os_env file in
  (forall v, env p !! "PORT" = Some v -> v <> "" ->
     listener p = Binding (JsString v)
     /\ listener (step p Listening) = Bound (JsString v))
  /\ (env p !! "PORT" = None \/ env p !! "PORT" = Some "" ->
      listener p = Binding (JsNumber 5001)
      /\ listener (step p Listening) = Bound (JsNumber 5001)).
Proof.
  rewrite startup_eq. cbn [env listener step exited bound call on_listening].
  unfold PORT. split.
  - intros v -> Hne.
    destruct (String.eqb_spec v "") as [->|_]; [contradiction|].
    split; reflexivity.
  - intros [-> | ->]; split; reflexivity.
Qed.

(** C2 at [PORT=8080], at an empty environment, and at an empty [PORT]
    with a [.env] file that sets another. *)
Lemma listening_port_from_environment_witness :
  listener (startup {["PORT" := "8080"]} None) = Binding (JsString "8080")
  /\ listener (startup ∅ None) = Binding (JsNumber 5001)
  /\ listener (startup (<["PORT" := ""]> ∅) (Some {["PORT" := "3000"]}))
     = Binding (JsNumber 5001).
Proof.
  split; [|split].
  - assert (H : env (startup {["PORT" := "8080"]} None) !! "PORT"
                = Some "8080") by (vm_compute; reflexivity).
    assert (Hne : "8080" <> "") by discriminate.
    exact (proj1 (proj1 (listening_port_from_environment
                           {["PORT" := "8080"]} None) "8080" H Hne)).
  - assert (H : env (startup ∅ None) !! "PORT" = None)
      by (vm_compute; reflexivity).
    exact (proj1 (proj2 (listening_port_from_environment ∅ None)
                    (or_introl H))).
  - assert (H : env (startup (<["PORT" := ""]> ∅)
                       (Some {["PORT" := "3000"]})) !! "PORT" = Some "")
      by (vm_compute; reflexivity).
    exact (proj1 (proj2 (listening_port_from_environment (<["PORT" := ""]> ∅)
                           (Some {["PORT" := "3000"]}))
                    (or_intror H))).
Defined.

(** C5. In program order the connectivity check is started strictly before
    the bind is requested, and when the script has run the check is pending
    and nothing is accepted yet.  The completion of the check and the
    readiness of the listener are not ordered: one run answers a request
    while the check is still pending, another settles the check while the
    bind is still outstanding. *)
Theorem check_starts_first_completion_unordered os_env file :
  let p := startup os_env file in
  (exists before port,
     trace p = before ++ [Authenticate; Listen port]
     /\ ~ In (Listen port) before
     /\ db p = Pending /\ listener p = Binding port /\ served p = [])
  /\ (forall r, exists evs,
        db (run p evs) = Pending /\ served (run p evs) = [(r, answer r)])
  /\ (forall o, exists evs port,
        In (DbSettled o) evs
        /\ db (run p evs) = Settled /\ listener (run p evs) = Binding port).
Proof.
  rewrite startup_eq. cbv zeta. split; [|split].
  - exists [DotenvConfig; CreateApp; AppUse; AppUse; AppGet "/"],
      (PORT (os_env ∪ default ∅ file)).
    repeat split.
    intros [H|[H|[H|[H|[H|[]]]]]]; discriminate.
  - intros r. exists [Listening; Incoming r]. split; reflexivity.
  - intros o. exists [DbSettled o], (PORT (os_env ∪ default ∅ file)).
    split; [left; reflexivity|]. destruct o; split; reflexivity.
Qed.

(** ** Events, one at a time *)

(** The callbacks and the application stay as the script installed them,
    whatever happens; [port] is the port the script chose. *)
Section Events.

Variable port : JsValue.

Lemma wired_step p ev : wired port p -> wired port (step p ev).
Proof.
  intros Hw. pose proof Hw as (Ha & Hf & Hr & Hl & He & Ht & Hs & Hx).
  unfold step. destruct (exited p) eqn:Ex; [exact Hw|].
  destruct ev as [o| |e|r].
  - destruct (db p); try exact Hw.
    unfold settle. destruct o; rewrite ?Hf, ?Hr; wired_same.
  - destruct (listener p) as [|q|q] eqn:El; try exact Hw.
    assert (q = port) as -> by (destruct Hs as [?|[?|?]]; congruence).
    unfold bound. rewrite Hl. wired_same.
  - destruct (listener p) eqn:El; try exact Hw.
    unfold bind_failed. rewrite He. wired_same.
  - destruct (listener p) eqn:El; exact Hw.
Qed.

Lemma wired_run evs p : wired port p -> wired port (run p evs).
Proof.
  revert p. induction evs as [|ev evs IH]; intros p Hp; [exact Hp|].
  apply IH, wired_step, Hp.
Qed.

(** A pending check that settles writes its line and nothing else. *)
Lemma step_db p o :
  wired port p -> awaits_db p = true ->
  step p (DbSettled o)
  = with_console (console p ++ [db_line o]) (with_db Settled p).
Proof.
  intros (Ha & Hf & Hr & Hl & He & Ht & Hs & Hx) Hw.
  unfold awaits_db in Hw. apply andb_true_iff in Hw as [Hx' Hd].
  apply negb_true_iff in Hx'. unfold step. rewrite Hx'.
  destruct (db p); try discriminate.
  unfold settle. destruct o; rewrite ?Hf, ?Hr; reflexivity.
Qed.

(** What an event writes does not depend on what was written before. *)
Lemma step_frame p ev :
  wired port p ->
  exists out, forall c,
    step (with_console c p) ev = with_console (c ++ out) (step p ev).
Proof.
  intros (Ha & Hf & Hr & Hl & He & Ht & Hs & Hx).
  unfold step; cbn [exited with_console db listener].
  destruct (exited p); [quiet|].
  destruct ev as [o| |e|r].
  - destruct (db p); try quiet.
    exists [db_line o]. intros c. unfold settle, call; cbn. rewrite Hf, Hr.
    destruct o; reflexivity.
  - destruct (listener p) as [|q|q]; try quiet.
    exists ["Server running on port " +:+ to_string port]. intros c.
    unfold bound, call; cbn. rewrite Hl. reflexivity.
  - destruct (listener p); try quiet.
    unfold bind_failed; cbn. rewrite He. quiet.
  - destruct (listener p); quiet.
Qed.

Lemma wired_with_db d p : wired port p -> wired port (with_db d p).
Proof. intros H; exact H. Qed.

Lemma run_frame evs :
  forall p, wired port p ->
  exists out, forall c,
    run (with_console c p) evs = with_console (c ++ out) (run p evs).
Proof.
  induction evs as [|ev evs IH]; intros p Hw.
  - exists []. intros c. rewrite app_nil_r. reflexivity.
  - destruct (step_frame p ev Hw) as (o1 & H1).
    destruct (IH (step p ev) (wired_step _ _ Hw)) as (o2 & H2).
    exists (o1 ++ o2). intros c. cbn [run fold_left].
    fold (run (step p ev) evs). fold (run (step (with_console c p) ev) evs).
    rewrite H1, H2, app_assoc. reflexivity.
Qed.

End Events.

(** An outcome that reaches no callback changes nothing. *)
Lemma step_db_late p o : awaits_db p = false -> step p (DbSettled o) = p.
Proof.
  unfold awaits_db, step. destruct (exited p); [reflexivity|].
  destruct (db p); [reflexivity|discriminate|reflexivity].
Qed.

Lemma wired_reached os_env file evs :
  wired (PORT (env (startup os_env file))) (run (startup os_env file) evs).
Proof. apply wired_run, wired_startup. Qed.

Lemma step_listening p port :
  exited p = false -> listener p = Binding port ->
  step p Listening = bound port p.
Proof. intros Hx Hl. unfold step. rewrite Hx, Hl. reflexivity. Qed.

Lemma step_incoming p port r :
  exited p = false -> listener p = Bound port ->
  step p (Incoming r) = serve r p.
Proof. intros Hx Hl. unfold step. rewrite Hx, Hl. reflexivity. Qed.

Lemma bound_fields port p :
  exited (bound port p) = exited p
  /\ listener (bound port p) = Bound port
  /\ served (bound port p) = served p
  /\ app (bound port p) = app p.
Proof. unfold bound, call. destruct (on_listening p); repeat split. Qed.

Lemma serve_fields r p :
  exited (serve r p) = exited p
  /\ listener (serve r p) = listener p
  /\ served (serve r p) = served p ++ [(r, app_handle (app p) r)].
Proof. repeat split. Qed.

(** ** The database check *)

(** C3. Whenever the outcome of the check arrives at a running process,
    the callbacks write exactly one line, ["Database connected..."] on
    success and ["Error: "] followed by the description on failure, and no
    later outcome writes another; the process keeps running, the listener
    and the application are untouched, a pending bind still completes, and
    requests are answered as before. *)
Theorem db_outcome_is_logged_only os_env file pre o :
  let p := run (startup os_env file) pre in
  let p' := step p (DbSettled o) in
  db p = Pending -> exited p = false ->
  console p'
  = console p ++ [match o with
                  | AuthOk => "Database connected..."
                  | AuthErr e => "Error: " +:+ e
                  end]
  /\ (forall o', step p' (DbSettled o') = p')
  /\ exited p' = false /\ listener p' = listener p
  /\ served p' = served p /\ app p' = the_app
  /\ (forall port r, listener p = Binding port ->
        let q := run p' [Listening; Incoming r] in
        listener q = Bound port /\ exited q = false
        /\ served q = served p ++ [(r, answer r)])
  /\ (forall port r, listener p = Bound port ->
        served (step p' (Incoming r)) = served p ++ [(r, answer r)]).
Proof.
  intros p p' Hd Hx. subst p'.
  pose proof (wired_reached os_env file pre) as Hw. fold p in Hw.
  rewrite (step_db _ p o Hw)
    by (unfold awaits_db; rewrite Hd, Hx; reflexivity).
  destruct Hw as (Ha & Hf & Hr & Hl & He & Ht & Hs & _).
  set (q0 := with_console _ _).
  assert (Hq : exited q0 = false /\ listener q0 = listener p
               /\ served q0 = served p /\ app q0 = the_app)
    by (repeat split; assumption).
  destruct Hq as (Hqx & Hql & Hqs & Hqa).
  split; [destruct o; reflexivity|].
  split; [intros o'; apply step_db_late; unfold awaits_db; rewrite Hqx;
          reflexivity|].
  split; [exact Hqx|]. split; [exact Hql|]. split; [exact Hqs|].
  split; [exact Hqa|]. split.
  - intros port r Hb. cbv zeta. cbn [run fold_left].
    rewrite (step_listening q0 port) by congruence.
    destruct (bound_fields port q0) as (Bx & Bl & Bs & Ba).
    rewrite (step_incoming _ port) by congruence.
    destruct (serve_fields r (bound port q0)) as (Sx & Sl & Ss).
    rewrite Sx, Sl, Ss, Bx, Bs, Ba, Hqs, Hqa.
    repeat split; assumption.
  - intros port r Hb. rewrite (step_incoming q0 port) by congruence.
    destruct (serve_fields r q0) as (Sx & Sl & Ss).
    rewrite Ss, Hqs, Hqa. reflexivity.
Qed.

(** C3 for a check that fails after the listener is ready. *)
Lemma db_outcome_is_logged_only_witness :
  console (step (run (startup ∅ None) [Listening])
             (DbSettled (AuthErr "ECONNREFUSED")))
  = console (run (startup ∅ None) [Listening]) ++ ["Error: ECONNREFUSED"].
Proof.
  assert (Hd : db (run (startup ∅ None) [Listening]) = Pending)
    by (vm_compute; reflexivity).
  assert (Hx : exited (run (startup ∅ None) [Listening]) = false)
    by (vm_compute; reflexivity).
  exact (proj1 (db_outcome_is_logged_only ∅ None [Listening]
                  (AuthErr "ECONNREFUSED") Hd Hx)).
Defined.

(** ** Failure to bind *)

(** C4. When the bind fails while it is outstanding, no listener of the
    server's [error] event exists, the process exits without writing
    anything, and nothing is executed afterwards: no event changes the
    exited process and [app.listen] is called once in all. *)
Theorem bind_failure_is_fatal os_env file pre e post :
  let p := run (startup os_env file) pre in
  let p' := step p (BindError e) in
  (exists port, listener p = Binding port) ->
  on_error p = []
  /\ exited p' = true /\ listener p' = Closed
  /\ console p' = console p /\ served p' = served p
  /\ run p' post = p'
  /\ trace (run p' post) = trace (startup os_env file).
Proof.
  intros p p' [port Hb]. subst p'.
  pose proof (wired_reached os_env file pre) as Hw. fold p in Hw.
  destruct Hw as (Ha & Hf & Hr & Hl & He & Ht & Hs & Hx).
  assert (Hal : exited p = false).
  { destruct (exited p); [|reflexivity].
    specialize (Hx eq_refl). congruence. }
  assert (Hstep : step p (BindError e)
                  = mkProc (env p) (dotenv_file p) (app p) (console p)
                      (trace p) (db p) (on_fulfilled p) (on_rejected p)
                      Closed (on_listening p) (on_error p) true (served p)
                      (app_env p) (console_error p)).
  { unfold step. rewrite Hal, Hb. unfold bind_failed. rewrite He.
    reflexivity. }
  rewrite Hstep. rewrite run_exited by reflexivity. cbn.
  destruct (wired_startup os_env file) as (_ & _ & _ & _ & _ & Ht' & _).
  rewrite Ht'. repeat split; assumption.
Qed.

(** C4 for a privileged port, the check having succeeded before. *)
Lemma bind_failure_is_fatal_witness :
  exited (step (run (startup {["PORT" := "80"]} None) [DbSettled AuthOk])
            (BindError "EACCES")) = true.
Proof.
  assert (Hb : exists port,
             listener (run (startup {["PORT" := "80"]} None)
                         [DbSettled AuthOk]) = Binding port).
  { exists (JsString "80"). vm_compute. reflexivity. }
  exact (proj1 (proj2 (bind_failure_is_fatal {["PORT" := "80"]} None
                         [DbSettled AuthOk] "EACCES" [] Hb))).
Defined.

(** ** Two runs that differ in the outcome of the check *)

Lemma served_answers port evs :
  forall p, wired port p ->
  Forall (fun ra => snd ra = answer (fst ra)) (served p) ->
  Forall (fun ra => snd ra = answer (fst ra)) (served (run p evs)).
Proof.
  induction evs as [|ev evs IH]; intros p Hw Hs; [exact Hs|].
  cbn [run fold_left]. apply IH; [apply wired_step, Hw|].
  destruct Hw as (Ha & _). unfold step.
  destruct (exited p); [exact Hs|].
  destruct ev as [o| |e|r].
  - destruct (db p); try exact Hs. unfold settle, call.
    destruct o; [destruct (on_fulfilled p)|destruct (on_rejected p)];
      exact Hs.
  - destruct (listener p); try exact Hs. unfold bound, call.
    destruct (on_listening p); exact Hs.
  - destruct (listener p); try exact Hs. unfold bind_failed.
    destruct (on_error p); exact Hs.
  - destruct (listener p); try exact Hs. unfold serve; cbn.
    apply Forall_app; split; [exact Hs|].
    constructor; [cbn; rewrite Ha; reflexivity|constructor].
Qed.

(** C9. Two runs from the same start-up over the same events, except that
    the check succeeds in one and fails in the other, serve the same
    requests with the same responses (each the answer of the application
    to its request alone) and leave the listener and the process in the
    same state; their consoles differ in the one line of the check, and
    not at all when the outcome reaches no callback. *)
Theorem responses_independent_of_db_outcome os_env file pre post e :
  let mid := run (startup os_env file) pre in
  let ok := run (startup os_env file) (pre ++ DbSettled AuthOk :: post) in
  let ko :=
    run (startup os_env file) (pre ++ DbSettled (AuthErr e) :: post) in
  served ok = served ko
  /\ Forall (fun ra => snd ra = answer (fst ra)) (served ok)
  /\ listener ok = listener ko /\ exited ok = exited ko
  /\ exists before after,
       console ok
       = before ++ (if awaits_db mid then ["Database connected..."] else [])
           ++ after
       /\ console ko
          = before ++ (if awaits_db mid then ["Error: " +:+ e] else [])
              ++ after.
Proof.
  intros mid ok ko.
  pose proof (wired_reached os_env file pre) as Hw. fold mid in Hw.
  assert (Hans : Forall (fun ra => snd ra = answer (fst ra)) (served ok)).
  { apply (served_answers (PORT (env (startup os_env file)))).
    - apply wired_startup.
    - rewrite startup_eq. constructor. }
  subst ok ko. rewrite !run_app in *. fold mid in Hans |- *.
  cbn [run fold_left] in *. fold (run (step mid (DbSettled AuthOk)) post) in *.
  fold (run (step mid (DbSettled (AuthErr e))) post).
  destruct (awaits_db mid) eqn:Haw.
  - rewrite !(step_db _ mid _ Hw Haw) in *.
    destruct (run_frame _ post (with_db Settled mid)
                (wired_with_db _ Settled _ Hw)) as (out & Hout).
    change (with_console ?c (with_db Settled mid))
      with (with_console c (with_console c (with_db Settled mid))) in *.
    rewrite !Hout in *. cbn [served listener exited console with_console].
    split; [reflexivity|]. split; [exact Hans|].
    split; [reflexivity|]. split; [reflexivity|].
    exists (console mid), out. rewrite <- !app_assoc. split; reflexivity.
  - rewrite !(step_db_late mid _ Haw) in *.
    split; [reflexivity|]. split; [exact Hans|].
    split; [reflexivity|]. split; [reflexivity|].
    exists (console (run mid post)), []. rewrite !app_nil_r.
    split; reflexivity.
Qed.

(** ** Requests *)

Lemma handles_get m :
  handles_method GET m = true <-> m = GET \/ m = HEAD.
Proof. destruct m; cbn; split; intros H; try discriminate; intuition congruence. Qed.

(** What the handler of the route sends. *)
Lemma greeting_sent r :
  method r = GET \/ method r = HEAD ->
  res_send (parsed r) after_cors greeting
  = if revalidates r
    then mkRes 304 not_modified_headers
           (match method r with HEAD => NoEntity | _ => Text "" end)
    else mkRes 200 greeting_headers
           (match method r with HEAD => NoEntity | _ => Text greeting end).
Proof.
  intros Hm. unfold res_send. cbv zeta.
  replace (truthy (getHeader "content-type" after_cors)) with false
    by (vm_compute; reflexivity).
  cbv beta iota.
  set (res1 := setHeader "content-length" _ _).
  replace (truthy (getHeader "etag" res1)) with false
    by (vm_compute; reflexivity).
  cbv beta iota.
  set (res2 := setHeader "etag" _ res1).
  replace (req_fresh (parsed r) res2) with (revalidates r).
  2:{ unfold req_fresh. cbn [parsed wire].
      destruct Hm as [-> | ->]; reflexivity. }
  cbn [parsed wire].
  destruct Hm as [-> | ->]; destruct (revalidates r); vm_compute; reflexivity.
Qed.

Lemma strip_slash_empty p : strip_slash p = "" <-> p = "" \/ p = "/".
Proof.
  unfold strip_slash. split.
  - intros H. rewrite <- (string_of_list_ascii_of_string p) in H |- *.
    rewrite list_ascii_of_string_of_list_ascii in H.
    rewrite <- (rev_involutive (list_ascii_of_string p)) in H |- *.
    destruct (rev (list_ascii_of_string p)) as [|c l] eqn:E.
    + left. reflexivity.
    + rewrite rev_involutive in H.
      destruct (Ascii.eqb_spec c "/") as [->|Hc].
      * right.
        apply (f_equal list_ascii_of_string) in H.
        rewrite list_ascii_of_string_of_list_ascii in H. cbn in H.
        apply (f_equal (@rev ascii)) in H. rewrite rev_involutive in H.
        cbn in H. subst l. reflexivity.
      * apply (f_equal list_ascii_of_string) in H.
        rewrite list_ascii_of_string_of_list_ascii in H.
        cbn in H. destruct (rev l); discriminate.
  - intros [-> | ->]; reflexivity.
Qed.

Lemma lower_empty s : lower s = "" <-> s = "".
Proof. destruct s; cbn; split; intros H; congruence. Qed.

(** The pattern of the route matches the path "/" (and the empty path). *)
Lemma at_root_iff r : at_root r = true <-> path r = "/" \/ path r = "".
Proof.
  unfold at_root, match_path.
  change (lower (strip_slash "/")) with "".
  rewrite String.eqb_eq, lower_empty, strip_slash_empty. tauto.
Qed.


(** A body the parser reads in the plain way is the text it parses. *)
Lemma plain_text r :
  BodyParser.hasBody r = true ->
  BodyParser.shouldParse BodyParser.defaults r = true ->
  BodyParser.plain BodyParser.defaults r = true ->
  BodyParser.unsupported r = false ->
  BodyParser.decode (payload r) = payload r.
Proof.
  intros Hb Hs Hp Hu. unfold BodyParser.plain in Hp.
  rewrite Hb, Hs, Hu in Hp. cbn [andb negb orb] in Hp.
  apply andb_prop in Hp as [_ Hp]. apply andb_prop in Hp as [_ Hp].
  unfold BodyParser.decode.
  destruct (String.prefix BodyParser.bom (payload r)); [discriminate|].
  reflexivity.
Qed.


(** The plain requests the parser lets through: without a body, with
    another content type, or in a supported character set and coding with
    a text within the limit that is empty or is a JSON text starting
    (after white space) with a brace or a bracket. *)
Lemma rejects_none_iff r :
  BodyParser.plain BodyParser.defaults r = true ->
  BodyParser.rejects BodyParser.defaults r = None
  <-> BodyParser.hasBody r = false
      \/ BodyParser.shouldParse BodyParser.defaults r = false
      \/ (BodyParser.unsupported r = false
          /\ (byte_length (payload r) <=? 102400)%N = true
          /\ (payload r = ""
              \/ ((exists c, BodyParser.firstchar (payload r) = Some c
                            /\ (c = "{" \/ c = "[")%char)
                  /\ Json.valid (payload r) = true))).
Proof.
  intros Hp. rewrite rejects_eq.
  destruct (BodyParser.hasBody r) eqn:Hb; cbn [negb andb]; [|split; auto].
  destruct (BodyParser.shouldParse BodyParser.defaults r) eqn:Hs;
    cbn [negb]; [|split; auto].
  destruct (BodyParser.unsupported r) eqn:Hu.
  { split; [discriminate|]. intros [H|[H|[H _]]]; discriminate. }
  rewrite (plain_text r Hb Hs Hp Hu).
  rewrite N.ltb_antisym.
  destruct (byte_length (payload r) <=? 102400)%N; cbn [negb].
  2:{ split; [discriminate|]. intros [H|[H|[_ [H _]]]]; discriminate. }
  unfold BodyParser.parse.
  change (BodyParser.strict BodyParser.defaults) with true. cbn [andb].
  destruct (String.eqb_spec (payload r) "") as [E|E]; [split; auto 6|].
  assert (Hno : forall P : Prop,
             (P -> False) ->
             (Some 400%Z = None :> option Z) <->
             true = false \/ true = false
             \/ (false = false /\ true = true /\ (payload r = "" \/ P))).
  { intros P HP. split; [discriminate|].
    intros [H|[H|[_ [_ [H|H]]]]]; try discriminate;
      [contradiction | destruct (HP H)]. }
  assert (Hyes : forall P : Prop,
             P ->
             (None = None :> option Z) <->
             true = false \/ true = false
             \/ (false = false /\ true = true /\ (payload r = "" \/ P))).
  { intros P HP. split; auto 7. }
  destruct (BodyParser.firstchar (payload r)) as [c|].
  - destruct (Ascii.eqb_spec c "{") as [->|Hbr]; cbn [orb negb].
    + destruct (Json.valid (payload r)).
      * apply Hyes. split; [exists "{"%char; auto|reflexivity].
      * apply Hno. intros [_ H]; discriminate.
    + destruct (Ascii.eqb_spec c "[") as [->|Hk]; cbn [negb].
      * destruct (Json.valid (payload r)).
        -- apply Hyes. split; [exists "["%char; auto|reflexivity].
        -- apply Hno. intros [_ H]; discriminate.
      * apply Hno. intros [(c' & H & [-> | ->]) _]; congruence.
  - cbn [negb]. apply Hno. intros [(c' & H & _) _]; discriminate.
Qed.

(** ** The greeting *)




(** A [GET /] that revalidates is answered 304 without the greeting. *)
Lemma get_root_revalidated :
  statusCode (respond get_root_any_etag) = 304%Z
  /\ sent (respond get_root_any_etag) = Text "".
Proof. split; vm_compute; reflexivity. Qed.

(** Without [If-None-Match] nothing is revalidated. *)
Lemma unconditional_not_fresh r :
  truthy (headers r !! "if-none-match") = false -> revalidates r = false.
Proof.
  intros H. unfold revalidates, fresh. rewrite H. cbn [negb andb].
  destruct (truthy (headers r !! "if-modified-since")); [|reflexivity].
  cbn [negb andb]. destruct (_ && _); reflexivity.
Qed.

(** ** The final handler *)

Lemma final_error_status st req res :
  statusCode (final_error st req res)
  = if is_error_status st then st
    else if is_error_status (statusCode res) then statusCode res else 500%Z.
Proof. unfold final_error. destruct (method (wire req)); reflexivity. Qed.

Lemma final_error_headers st req res :
  resHeaders (final_error st req res) = resHeaders (final_headers res).
Proof. unfold final_error. destruct (method (wire req)); reflexivity. Qed.

Lemma final_not_found_status req res :
  statusCode (final_not_found req res) = 404%Z.
Proof. unfold final_not_found. destruct (method (wire req)); reflexivity. Qed.

Lemma final_not_found_headers req res :
  resHeaders (final_not_found req res)
  = <["content-length" :=
        to_dec (byte_length
                  (not_found_page (method (wire req)) (path (wire req))))]>
      (resHeaders (final_headers res)).
Proof. unfold final_not_found. destruct (method (wire req)); reflexivity. Qed.

(** ** Malformed bodies *)





(** The parser takes an empty body for the empty object: with a JSON
    content type and [Content-Length: 0] a [GET /] is greeted. *)
Lemma empty_json_body_is_accepted :
  BodyParser.shouldParse BodyParser.defaults get_root_no_text = true
  /\ Json.valid (payload get_root_no_text) = false
  /\ statusCode (respond get_root_no_text) = 200%Z.
Proof. repeat split; vm_compute; reflexivity. Qed.

(** ** Cross-origin headers *)



(** ** Routes and dispatch *)






(** ** Bodies the parser accepts *)




(** * Further properties of the script *)

(** ** The listener *)

Lemma reached_alive_while_binding os_env file evs port :
  listener (run (startup os_env file) evs) = Binding port ->
  exited (run (startup os_env file) evs) = false
  /\ port = PORT (os_env ∪ default ∅ file).
Proof.
  intros Hb.
  destruct (wired_reached os_env file evs)
    as (_ & _ & _ & _ & _ & _ & Hs & Hx).
  rewrite env_of_startup in Hs. split.
  - destruct (exited _); [|reflexivity]. specialize (Hx eq_refl). congruence.
  - destruct Hs as [H|[H|H]]; congruence.
Qed.

(** X1. When the bind that [app.listen] asked for succeeds, the callback
    writes the one line ["Server running on port "] followed by the port
    the script chose (5001 when [PORT] is unset), the listener is bound to
    that port, and a second [listening] event writes nothing. *)
Theorem listening_is_announced_once os_env file pre port :
  let p := run (startup os_env file) pre in
  listener p = Binding port ->
  port = PORT (os_env ∪ default ∅ file)
  /\ console (step p Listening)
     = console p ++ ["Server running on port " +:+ to_string port]
  /\ listener (step p Listening) = Bound port
  /\ step (step p Listening) Listening = step p Listening
  /\ ((os_env ∪ default ∅ file) !! "PORT" = None ->
      console (step p Listening)
      = console p ++ ["Server running on port 5001"]).
Proof.
  intros p Hb.
  destruct (reached_alive_while_binding os_env file pre port Hb) as (Hx & Hp).
  fold p in Hx.
  destruct (wired_reached os_env file pre)
    as (_ & _ & _ & Hl & _). fold p in Hl.
  rewrite env_of_startup, <- Hp in Hl.
  rewrite (step_listening p port Hx Hb).
  destruct (bound_fields port p) as (Bx & Bl & _).
  assert (Hc : console (bound port p)
               = console p ++ ["Server running on port " +:+ to_string port]).
  { unfold bound, call. rewrite Hl. reflexivity. }
  split; [exact Hp|]. split; [exact Hc|]. split; [exact Bl|]. split.
  - unfold step. rewrite Bx, Hx, Bl. reflexivity.
  - intros Hnone. rewrite Hc, Hp. unfold PORT. rewrite Hnone. reflexivity.
Qed.

(** X1 at the start of a process with [PORT=8080]. *)
Lemma listening_is_announced_once_witness :
  console (step (run (startup {["PORT" := "8080"]} None) []) Listening)
  = console (run (startup {["PORT" := "8080"]} None) [])
    ++ ["Server running on port 8080"].
Proof.
  assert (Hb : listener (run (startup {["PORT" := "8080"]} None) [])
               = Binding (JsString "8080")) by (vm_compute; reflexivity).
  exact (proj1 (proj2 (listening_is_announced_once
                         {["PORT" := "8080"]} None [] (JsString "8080") Hb))).
Defined.

(** ** The environment file *)

(** X3. [dotenv] fills in only what the environment lacks: when the
    environment the process was started with sets [PORT], even to the empty
    string, the port is chosen as if there were no [.env] file; when it
    does not, the port is chosen from the file as if the file were the
    environment. *)
Theorem dotenv_keeps_what_is_set os_env f :
  (forall v, os_env !! "PORT" = Some v ->
     listener (startup os_env (Some f)) = listener (startup os_env None))
  /\ (os_env !! "PORT" = None ->
      listener (startup os_env (Some f)) = listener (startup f None)).
Proof.
  rewrite !startup_eq. cbn [listener default]. unfold PORT. split.
  - intros v Hv.
    rewrite (lookup_union_Some_l os_env f "PORT" v Hv).
    rewrite (lookup_union_Some_l os_env ∅ "PORT" v Hv). reflexivity.
  - intros Hn. rewrite (lookup_union_r os_env f "PORT" Hn).
    rewrite (right_id_L ∅ (∪) f). reflexivity.
Qed.

(** X3 at an empty [PORT] beside a file that sets 3000, and at a file
    alone. *)
Lemma dotenv_keeps_what_is_set_witness :
  listener (startup (<["PORT" := ""]> ∅) (Some {["PORT" := "3000"]}))
  = listener (startup (<["PORT" := ""]> ∅) None)
  /\ listener (startup ∅ (Some {["PORT" := "3000"]}))
     = listener (startup {["PORT" := "3000"]} None).
Proof.
  split.
  - assert (H : (<["PORT" := ""]> ∅ : gmap string string) !! "PORT"
                = Some "") by (vm_compute; reflexivity).
    exact (proj1 (dotenv_keeps_what_is_set (<["PORT" := ""]> ∅)
                    {["PORT" := "3000"]}) "" H).
  - assert (H : (∅ : gmap string string) !! "PORT" = None)
      by (vm_compute; reflexivity).
    exact (proj2 (dotenv_keeps_what_is_set ∅ {["PORT" := "3000"]}) H).
Defined.

(** ** More on requests *)

(** The parser reads four headers and the body, nothing else. *)
Lemma parser_same r r' :
  headers r' !! "transfer-encoding" = headers r !! "transfer-encoding" ->
  headers r' !! "content-length" = headers r !! "content-length" ->
  headers r' !! "content-type" = headers r !! "content-type" ->
  headers r' !! "content-encoding" = headers r !! "content-encoding" ->
  payload r' = payload r ->
  BodyParser.rejects BodyParser.defaults r'
  = BodyParser.rejects BodyParser.defaults r
  /\ BodyParser.plain BodyParser.defaults r'
     = BodyParser.plain BodyParser.defaults r.
Proof.
  intros Ht Hl Hc He Hp.
  rewrite !rejects_eq.
  unfold BodyParser.plain, BodyParser.unsupported, BodyParser.hasBody,
    BodyParser.shouldParse, BodyParser.charset, BodyParser.contentEncoding,
    BodyParser.framed.
  rewrite Ht, Hl, Hc, He, Hp. split; reflexivity.
Qed.

Lemma length_append (a b : string) :
  String.length (a +:+ b) = String.length a + String.length b.
Proof.
  induction a as [|c a IH]; [reflexivity|].
  change (String c a +:+ b) with (String c (a +:+ b)).
  cbn [String.length Nat.add]. f_equal. exact IH.
Qed.

Lemma escape_html_append (a b : string) :
  escape_html (a +:+ b) = escape_html a +:+ escape_html b.
Proof.
  induction a as [|c a IH]; [reflexivity|].
  change (String c a +:+ b) with (String c (a +:+ b)).
  cbn [escape_html]. rewrite IH.
  repeat (destruct (Ascii.eqb c _); [reflexivity|]). reflexivity.
Qed.

(** The frame of the page takes 127 bytes. *)
Lemma html_length message :
  String.length (html_document message)
  = 104 + (String.length (escape_html message) + 23).
Proof. unfold html_document. rewrite !length_append. reflexivity. Qed.

(** The page for [HEAD] is one byte longer than the page for [GET]: the
    two differ in the name of the method alone. *)
Lemma head_page_is_longer p :
  byte_length (not_found_page HEAD p)
  = (byte_length (not_found_page GET p) + 1)%N.
Proof.
  unfold byte_length, not_found_page, method_name.
  rewrite !html_length, !escape_html_append, !length_append.
  change (String.length (escape_html "Cannot ")) with 7.
  change (String.length (escape_html "HEAD")) with 4.
  change (String.length (escape_html "GET")) with 3.
  change (String.length (escape_html " ")) with 1.
  lia.
Qed.

(** X5. A [HEAD] request is answered like the [GET] request with the same
    path, headers and body: by the same layer, with the same status and
    without a body.  The headers are the same too, but for the
    [Content-Length] of a page not found, which is that of the page for
    [HEAD] and so one more than for [GET]; in particular [HEAD /] gets the
    status and the headers of the greeting.  The request is a plain
    one. *)
Theorem head_mirrors_get r :
  method r = GET ->
  BodyParser.plain BodyParser.defaults r = true ->
  let h := with_method HEAD r in
  via h = via r
  /\ statusCode (respond h) = statusCode (respond r)
  /\ sent (respond h) = NoEntity
  /\ (via r <> ByNotFound -> resHeaders (respond h) = resHeaders (respond r))
  /\ (via r = ByNotFound ->
      resHeaders (respond h)
      = <["content-length" :=
            to_dec (byte_length (not_found_page GET (path r)) + 1)]>
          (resHeaders (respond r))
      /\ resHeaders (respond r) !! "content-length"
         = Some (to_dec (byte_length (not_found_page GET (path r))))).
Proof.
  intros Hm _ h. unfold via, respond, h. rewrite !answer_cases.
  cbn [method with_method]. rewrite Hm.
  rewrite (proj1 (parser_same r (with_method HEAD r)
                    eq_refl eq_refl eq_refl eq_refl eq_refl)).
  destruct (BodyParser.rejects BodyParser.defaults r) as [st|].
  - cbn [fst snd].
    rewrite !final_error_status, !final_error_headers.
    split; [reflexivity|]. split; [reflexivity|]. split; [reflexivity|].
    split; [intros _; reflexivity|intros H; discriminate H].
  - change (at_root (with_method HEAD r)) with (at_root r).
    change (handles_method GET HEAD) with true.
    change (handles_method GET GET) with true.
    destruct (at_root r); cbn [andb fst snd].
    + rewrite (greeting_sent r) by (left; exact Hm).
      rewrite (greeting_sent (with_method HEAD r)) by (right; reflexivity).
      change (revalidates (with_method HEAD r)) with (revalidates r).
      cbn [method with_method].
      destruct (revalidates r);
        (split; [reflexivity|]; split; [reflexivity|]; split; [reflexivity|];
         split; [intros _; reflexivity|intros H; discriminate H]).
    + rewrite !final_not_found_status, !final_not_found_headers.
      cbn [parsed wire method path with_method]. rewrite Hm.
      rewrite head_page_is_longer.
      split; [reflexivity|]. split; [reflexivity|]. split; [reflexivity|].
      split; [intros H; contradiction|intros _].
      split; [rewrite insert_insert_eq; reflexivity|apply lookup_insert_eq].
Qed.

(** X5 for a [GET /] without headers. *)
Lemma head_mirrors_get_witness :
  statusCode (respond (with_method HEAD get_root))
  = statusCode (respond get_root).
Proof.
  assert (Hp : BodyParser.plain BodyParser.defaults get_root = true)
    by (vm_compute; reflexivity).
  exact (proj1 (proj2 (head_mirrors_get get_root eq_refl Hp))).
Defined.

(** X6. The greeting is sent as HTML in UTF-8, not as plain text, with its
    length of 31 bytes and a weak entity tag made of that length and the
    SHA-1 digest of the text, to every plain [GET] or [HEAD] request for
    [/] that the parser lets through and that does not revalidate. *)
Theorem greeting_is_sent_as_html r :
  method r = GET \/ method r = HEAD -> path r = "/" ->
  BodyParser.plain BodyParser.defaults r = true ->
  BodyParser.rejects BodyParser.defaults r = None ->
  revalidates r = false ->
  resHeaders (respond r) !! "content-type" = Some "text/html; charset=utf-8"
  /\ resHeaders (respond r) !! "content-length" = Some "31"
  /\ resHeaders (respond r) !! "etag"
     = Some ("W/" +:+ quoted "1f-PWmoty+qEQnWrZ2FeyrbbsDxvq4").
Proof.
  intros Hm Hp _ Hj Hf. unfold respond. rewrite answer_cases, Hj.
  assert (at_root r = true) as -> by (apply at_root_iff; left; exact Hp).
  assert (handles_method GET (method r) = true) as ->
    by (apply handles_get; exact Hm).
  assert (Hsent : snd (ByRoute 2 GET "/",
                       res_send (parsed r) after_cors greeting)
                  = mkRes 200 greeting_headers
                      (match method r with
                       | HEAD => NoEntity
                       | _ => Text greeting
                       end))
    by (cbn [snd]; rewrite greeting_sent by exact Hm; rewrite Hf; reflexivity).
  destruct Hm as [Hm|Hm]; rewrite Hm in *; cbn [andb];
    rewrite Hsent; cbn [resHeaders];
    repeat split; vm_compute; reflexivity.
Qed.

(** X6 for a [GET /] without headers. *)
Lemma greeting_is_sent_as_html_witness :
  resHeaders (respond get_root) !! "content-type"
  = Some "text/html; charset=utf-8".
Proof.
  assert (Hp : BodyParser.plain BodyParser.defaults get_root = true)
    by (vm_compute; reflexivity).
  assert (Hj : BodyParser.rejects BodyParser.defaults get_root = None)
    by (vm_compute; reflexivity).
  assert (Hf : revalidates get_root = false) by (vm_compute; reflexivity).
  exact (proj1 (greeting_is_sent_as_html get_root (or_introl eq_refl)
                  eq_refl Hp Hj Hf)).
Defined.

(** The entity tag of every answer of the route, greeting or not
    modified. *)
Lemma route_etag r :
  method r = GET \/ method r = HEAD ->
  resHeaders (res_send (parsed r) after_cors greeting) !! "etag"
  = Some (Etag.weak greeting).
Proof.
  intros Hm. rewrite greeting_sent by exact Hm.
  destruct (revalidates r); vm_compute; reflexivity.
Qed.

(** X7. The entity tag round trip: when a plain [GET /] that the parser
    lets through, without [If-Modified-Since] and without a [no-cache]
    directive, is repeated with the entity tag of its response in
    [If-None-Match], the answer is 304 with an empty body, the same entity
    tag and neither content type nor content length. *)
Theorem entity_tag_round_trip r tag :
  method r = GET -> path r = "/" ->
  BodyParser.plain BodyParser.defaults r = true ->
  BodyParser.rejects BodyParser.defaults r = None ->
  truthy (headers r !! "if-modified-since") = false ->
  truthy (headers r !! "cache-control")
  && no_cache (default "" (headers r !! "cache-control")) = false ->
  resHeaders (respond r) !! "etag" = Some tag ->
  let again := with_header "if-none-match" tag r in
  BodyParser.plain BodyParser.defaults again = true
  /\ statusCode (respond again) = 304%Z
  /\ sent (respond again) = Text ""
  /\ resHeaders (respond again) !! "etag" = Some tag
  /\ resHeaders (respond again) !! "content-type" = None
  /\ resHeaders (respond again) !! "content-length" = None.
Proof.
  intros Hm Hp Hpl Hj Hims Hcc Htag again.
  assert (Hroot : at_root r = true) by (apply at_root_iff; left; exact Hp).
  assert (Htag' : tag = Etag.weak greeting).
  { unfold respond in Htag. rewrite answer_cases, Hm, Hj, Hroot in Htag.
    change (handles_method GET GET) with true in Htag.
    cbn [andb snd] in Htag.
    rewrite route_etag in Htag by (left; exact Hm). congruence. }
  subst tag.
  assert (Hsame : BodyParser.rejects BodyParser.defaults again
                  = BodyParser.rejects BodyParser.defaults r
                  /\ BodyParser.plain BodyParser.defaults again
                     = BodyParser.plain BodyParser.defaults r).
  { apply parser_same; try reflexivity;
      unfold again; cbn [headers with_header];
      apply lookup_insert_ne; discriminate. }
  destruct Hsame as (Hj' & Hpl'). rewrite Hj in Hj'. rewrite Hpl in Hpl'.
  assert (Hf : revalidates again = true).
  { unfold revalidates, fresh, again. cbn [headers with_header].
    rewrite lookup_insert_eq.
    rewrite !(lookup_insert_ne (headers r) "if-none-match") by discriminate.
    rewrite Hims, Hcc.
    replace (truthy (Some (Etag.weak greeting))) with true
      by (vm_compute; reflexivity).
    cbn [negb andb default].
    replace (String.eqb (Etag.weak greeting) "*") with false
      by (vm_compute; reflexivity).
    replace (etag_matches (Etag.weak greeting) (Etag.weak greeting))
      with true by (vm_compute; reflexivity).
    reflexivity. }
  split; [exact Hpl'|].
  unfold respond. rewrite answer_cases.
  change (method again) with (method r). rewrite Hm, Hj'.
  change (at_root again) with (at_root r). rewrite Hroot.
  change (handles_method GET GET) with true. cbn [andb snd].
  rewrite greeting_sent by (left; exact Hm). rewrite Hf.
  change (method again) with (method r). rewrite Hm.
  repeat split; vm_compute; reflexivity.
Qed.

(** X7 for a [GET /] without headers. *)
Lemma entity_tag_round_trip_witness :
  statusCode
    (respond (with_header "if-none-match"
                ("W/" +:+ quoted "1f-PWmoty+qEQnWrZ2FeyrbbsDxvq4") get_root))
  = 304%Z.
Proof.
  assert (Hp : BodyParser.plain BodyParser.defaults get_root = true)
    by (vm_compute; reflexivity).
  assert (Hj : BodyParser.rejects BodyParser.defaults get_root = None)
    by (vm_compute; reflexivity).
  assert (Hi : truthy (headers get_root !! "if-modified-since") = false)
    by (vm_compute; reflexivity).
  assert (Hc : truthy (headers get_root !! "cache-control")
               && no_cache (default "" (headers get_root !! "cache-control"))
               = false) by (vm_compute; reflexivity).
  assert (Ht : resHeaders (respond get_root) !! "etag"
               = Some ("W/" +:+ quoted "1f-PWmoty+qEQnWrZ2FeyrbbsDxvq4"))
    by (vm_compute; reflexivity).
  exact (proj1 (proj2 (entity_tag_round_trip get_root _ eq_refl eq_refl
                         Hp Hj Hi Hc Ht))).
Defined.

(** X8. A body with a JSON content type, in a character set and a content
    coding the parser supports, that is longer than 102400 bytes is
    refused with status 413 by the error handler, for every method but
    [OPTIONS] and every path, before its text is looked at.  The request
    is a plain one: UTF-8, not compressed, no quoted parameter, announced
    with its length if it is announced with one. *)
Theorem long_json_body_is_too_large r :
  method r <> OPTIONS ->
  BodyParser.hasBody r = true ->
  BodyParser.shouldParse BodyParser.defaults r = true ->
  BodyParser.plain BodyParser.defaults r = true ->
  BodyParser.unsupported r = false ->
  (102400 < byte_length (payload r))%N ->
  via r = ByErrorHandler /\ statusCode (respond r) = 413%Z.
Proof.
  intros Hm Hb Hs _ Hu Hl.
  assert (Hj : BodyParser.rejects BodyParser.defaults r = Some 413%Z).
  { rewrite rejects_eq, Hb, Hs, Hu. cbn [andb negb].
    apply N.ltb_lt in Hl. rewrite Hl. reflexivity. }
  unfold via, respond. rewrite answer_cases, Hj.
  destruct (method r); try contradiction; cbn [fst snd];
    rewrite final_error_status; split; reflexivity.
Qed.

(** X8 for a [POST /movies] with 102401 blanks. *)
Lemma long_json_body_is_too_large_witness :
  statusCode (respond post_movies_too_long) = 413%Z.
Proof.
  assert (Hm : method post_movies_too_long <> OPTIONS) by discriminate.
  assert (Hb : BodyParser.hasBody post_movies_too_long = true)
    by (vm_compute; reflexivity).
  assert (Hs : BodyParser.shouldParse BodyParser.defaults
                 post_movies_too_long = true) by (vm_compute; reflexivity).
  assert (Hp : BodyParser.plain BodyParser.defaults
                 post_movies_too_long = true) by (vm_compute; reflexivity).
  assert (Hu : BodyParser.unsupported post_movies_too_long = false)
    by (vm_compute; reflexivity).
  assert (Hl : (102400 < byte_length (payload post_movies_too_long))%N)
    by (apply N.ltb_lt; vm_compute; reflexivity).
  exact (proj2 (long_json_body_is_too_large post_movies_too_long
                  Hm Hb Hs Hp Hu Hl)).
Defined.

(** X11. A body with a JSON content type that comes in a character set
    whose name does not start with [utf-], or in a content coding other
    than [identity], [gzip] and [deflate], is refused with status 415 by
    the error handler before anything of it is read: whatever its text and
    its length, for every method but [OPTIONS] and every path.  The
    content type has no quoted parameter, and a [Content-Length] is the
    length of the body. *)
Theorem unsupported_body_is_refused_unread r :
  method r <> OPTIONS ->
  BodyParser.hasBody r = true ->
  BodyParser.shouldParse BodyParser.defaults r = true ->
  BodyParser.plain BodyParser.defaults r = true ->
  BodyParser.unsupported r = true ->
  via r = ByErrorHandler /\ statusCode (respond r) = 415%Z
  /\ forall b,
       via (with_payload b r) = ByErrorHandler
       /\ statusCode (respond (with_payload b r)) = 415%Z.
Proof.
  intros Hm Hb Hs _ Hu.
  assert (H : forall q, method q = method r -> BodyParser.hasBody q = true ->
              BodyParser.shouldParse BodyParser.defaults q = true ->
              BodyParser.unsupported q = true ->
              via q = ByErrorHandler /\ statusCode (respond q) = 415%Z).
  { intros q Hq Hbq Hsq Huq.
    assert (Hj : BodyParser.rejects BodyParser.defaults q = Some 415%Z)
      by (rewrite rejects_eq, Hbq, Hsq, Huq; reflexivity).
    unfold via, respond. rewrite answer_cases, Hj, Hq.
    destruct (method r); try contradiction; cbn [fst snd];
      rewrite final_error_status; split; reflexivity. }
  split; [exact (proj1 (H r eq_refl Hb Hs Hu))|].
  split; [exact (proj2 (H r eq_refl Hb Hs Hu))|].
  intros b. apply H; [reflexivity|exact Hb|exact Hs|exact Hu].
Qed.

(** X11 for a [POST /movies] in Latin-1 with 102401 blanks. *)
Lemma unsupported_body_is_refused_unread_witness :
  statusCode (respond post_movies_latin1_too_long) = 415%Z.
Proof.
  assert (Hm : method post_movies_latin1_too_long <> OPTIONS) by discriminate.
  assert (Hb : BodyParser.hasBody post_movies_latin1_too_long = true)
    by (vm_compute; reflexivity).
  assert (Hs : BodyParser.shouldParse BodyParser.defaults
                 post_movies_latin1_too_long = true)
    by (vm_compute; reflexivity).
  assert (Hp : BodyParser.plain BodyParser.defaults
                 post_movies_latin1_too_long = true)
    by (vm_compute; reflexivity).
  assert (Hu : BodyParser.unsupported post_movies_latin1_too_long = true)
    by (vm_compute; reflexivity).
  exact (proj1 (proj2 (unsupported_body_is_refused_unread
                         post_movies_latin1_too_long Hm Hb Hs Hp Hu))).
Defined.



(** X10. A body that comes without a JSON content type is never looked at:
    the answer to the request does not change when its body is replaced by
    any other text. *)
Theorem other_bodies_are_not_read r b :
  BodyParser.shouldParse BodyParser.defaults r = false ->
  answer (with_payload b r) = answer r.
Proof.
  intros Hs.
  assert (Hs' : BodyParser.shouldParse BodyParser.defaults (with_payload b r)
                = false) by exact Hs.
  assert (Hnone : forall q, BodyParser.shouldParse BodyParser.defaults q
                            = false ->
                  BodyParser.rejects BodyParser.defaults q = None).
  { intros q Hq. rewrite rejects_eq, Hq, andb_false_r. reflexivity. }
  rewrite !answer_cases, (Hnone _ Hs), (Hnone _ Hs').
  change (method (with_payload b r)) with (method r).
  change (at_root (with_payload b r)) with (at_root r).
  change (preflight (with_payload b r)) with (preflight r).
  destruct (handles_method GET (method r) && at_root r) eqn:Hh.
  - apply andb_true_iff in Hh as [Hg _]. apply handles_get in Hg.
    rewrite (greeting_sent r Hg), (greeting_sent (with_payload b r) Hg).
    reflexivity.
  - unfold parsed. rewrite Hs, Hs', !andb_false_r.
    destruct (method r); reflexivity.
Qed.

(** X10 for a [POST /movies] that sends [{] as plain text. *)
Lemma other_bodies_are_not_read_witness :
  answer (with_payload "[1, 2]" post_movies_text) = answer post_movies_text.
Proof.
  assert (Hs : BodyParser.shouldParse BodyParser.defaults post_movies_text
               = false) by (vm_compute; reflexivity).
  exact (other_bodies_are_not_read post_movies_text "[1, 2]" Hs).
Defined.
